(** * Pulse generator for the ESP32-C3: a shallow embedding of [main/pulse.c]

    The repository holds two generations of the firmware.  The first one
    ([Module Basic]) validates an interval and a pulse duration and then pulses
    forever; the second one ([Module Session]) adds the pulses-per-second
    entry, pulse limits, pause/resume and a supervising loop.

    Conventions of the embedding:
    - C [int] and [uint32_t] values are integers in [Z]; conversions and
      wrap-around are written out with [to_uint32] and [to_int32];
    - the serial line is the list of bytes that will arrive; a function that
      reads from it is a computation in the [uart] monad below;
    - [printf] and the text of [ESP_LOGI] only write to the console and are
      left out, except the per-pulse log record, which is kept as an event;
    - a pointer to [active_configs[i]] is the index [i]; the null pointer is
      [None]. *)

From Stdlib Require Import ZArith Ascii String List Lia Bool.
From stdpp Require Import base tactics option list strings.

Local Open Scope Z_scope.

(** ** C integers *)

Module CInt.

Definition INT_MAX : Z := 2147483647.
Definition UINT32_MODULUS : Z := 4294967296.

(** Conversion to [uint32_t]: reduction modulo 2^32. *)
Definition to_uint32 (z : Z) : Z := z mod UINT32_MODULUS.

(** Conversion of a 32-bit pattern to [int] (two's complement). *)
Definition to_int32 (z : Z) : Z :=
  let u := to_uint32 z in
  if u <=? INT_MAX then u else u - UINT32_MODULUS.

(** [a / b] on [int]: truncation toward zero; undefined for [b = 0]. *)
Definition c_div (a b : Z) : option Z :=
  if b =? 0 then None else Some (Z.quot a b).

(** [a % b] on [uint32_t]; undefined for [b = 0]. *)
Definition c_umod (a b : Z) : option Z :=
  if to_uint32 b =? 0 then None else Some (to_uint32 a mod to_uint32 b).

End CInt.
Import CInt.

(** ** The serial line *)

(** What a computation that reads the serial line comes to: a value and the
    bytes not yet consumed; [Starved] when it waits for a byte that never
    arrives ([uart_read_char] loops until one does); [Undefined] when it
    executes an operation without defined behaviour (a division by zero). *)
Inductive outcome (A : Type) : Type :=
| Ret (a : A) (rest : list ascii)
| Starved
| Undefined.
Arguments Ret {A} a rest.
Arguments Starved {A}.
Arguments Undefined {A}.

Definition uart (A : Type) : Type := list ascii -> outcome A.

Definition uart_ret {A} (a : A) : uart A := fun rx => Ret a rx.

Definition uart_bind {A B} (m : uart A) (k : A -> uart B) : uart B :=
  fun rx =>
    match m rx with
    | Ret a rest => k a rest
    | Starved => Starved
    | Undefined => Undefined
    end.

Notation "'let*' x := m 'in' k" := (uart_bind m (fun x => k))
  (at level 10, x name, m at level 100, k at level 200).

(** [uart_read_char]: blocks until one byte is available and returns it. *)
Definition uart_read_char : uart ascii :=
  fun rx => match rx with
            | [] => Starved
            | c :: rest => Ret c rest
            end.

(** Lifting of a guarded arithmetic operation. *)
Definition uart_eval {A} (o : option A) : uart A :=
  fun rx => match o with
            | Some a => Ret a rx
            | None => Undefined
            end.

(** ** Characters and [atoi] *)

Definition code (c : ascii) : Z := Z.of_N (N_of_ascii c).

Definition NUL : ascii := ascii_of_nat 0.
Definition BS : ascii := ascii_of_nat 8.
Definition LF : ascii := ascii_of_nat 10.
Definition CR : ascii := ascii_of_nat 13.
Definition DEL : ascii := ascii_of_nat 127.

Definition char_eqb (a b : ascii) : bool := code a =? code b.

(** [c >= '0' && c <= '9'] *)
Definition is_digit (c : ascii) : bool := (code "0"%char <=? code c) && (code c <=? code "9"%char).

(** [c == '\r' || c == '\n'] *)
Definition is_newline (c : ascii) : bool := char_eqb c CR || char_eqb c LF.

(** [c == 8 || c == 127] *)
Definition is_erase (c : ascii) : bool := (code c =? 8) || (code c =? 127).

(** The digits at the front of a buffer, read as a decimal number. *)
Fixpoint digits_value (acc : Z) (s : list ascii) : Z :=
  match s with
  | [] => acc
  | c :: s' => if is_digit c then digits_value (10 * acc + (code c - code "0"%char)) s' else acc
  end.

(** [atoi] as the C library of the target has it: [(int) strtol (s, NULL, 10)],
    where [long] is 32 bits and [strtol] saturates at [LONG_MAX].  The buffers
    it is applied to only ever hold digits followed by NUL bytes, so leading
    blanks and signs are not modelled. *)
Definition atoi (s : list ascii) : Z := Z.min (digits_value 0 s) INT_MAX.

(** The zero-initialised buffer [char input[n] = {0}]. *)
Definition zeroed (n : nat) : list ascii := replicate n NUL.

(** ** Outputs *)

(** One call of [gpio_set_level]: the tick count at the call, the pin and the
    level. *)
Record gpio_event : Set := mk_gpio_event {
  ev_tick : Z;
  ev_gpio : Z;
  ev_level : Z
}.

#[global] Instance gpio_event_eq_dec : EqDecision gpio_event.
Proof. solve_decision. Defined.

(** ** Entries typed on the serial line *)

Definition chars (s : string) : list ascii := list_ascii_of_string s.

(** The number a string of digits denotes. *)
Definition decimal_value (ds : list ascii) : Z := digits_value 0 ds.

(** A numeric entry as an operator types it: one to ten digits (to be followed
    by the return key). *)
Definition well_formed_entry (ds : list ascii) : bool :=
  negb (bool_decide (ds = [])) && (length ds <=? 10)%nat && forallb is_digit ds.

(** The decimal digits of a number, most significant first. *)
Fixpoint decimal_digits (fuel : nat) (n : Z) (acc : list ascii) : list ascii :=
  match fuel with
  | O => acc
  | S fuel' =>
      let acc' := ascii_of_nat (Z.to_nat (48 + n mod 10)) :: acc in
      if n / 10 =? 0 then acc' else decimal_digits fuel' (n / 10) acc'
  end.

Definition decimal (n : Z) : list ascii := decimal_digits 10 n [].

(** Whether a computation on the serial line stays within defined behaviour. *)
Definition defined {A} (o : outcome A) : bool :=
  match o with
  | Undefined => false
  | _ => true
  end.

(** * The first firmware: two outputs pulsing forever *)

Module Basic.

Definition GPIO_OUT_1 : Z := 4.
Definition GPIO_OUT_2 : Z := 5.
Definition MAX_INTERVAL_SECONDS : Z := 3600.
Definition MAX_INTERVAL_MS : Z := MAX_INTERVAL_SECONDS * 1000.
Definition MIN_INTERVAL_MS : Z := 200.
Definition MIN_PULSE_MS : Z := 100.
Definition MAX_PULSE_MS : Z := 10000.

Inductive pulse_mode_t : Set := MODE_DEFINED | MODE_RANDOM.

Record pulse_config_t : Set := mk_config {
  gpio : Z;
  interval_ms : Z;
  pulse_duration_ms : Z;
  mode : pulse_mode_t;
  label : string
}.

(** *** The configuration dialogue *)

(** The reading loop of [read_int_from_uart]: a 10-byte buffer, at most
    nine digits, no erase character. *)
Fixpoint read_int_loop (input : list ascii) (index : nat) (rx : list ascii)
  {struct rx} : outcome (list ascii * nat) :=
  if (9 <=? index)%nat then Ret (input, index) rx
  else
    match rx with
    | [] => Starved
    | c :: rx' =>
        if is_newline c then
          if (0 <? index)%nat then Ret (input, index) rx'
          else read_int_loop input index rx'
        else if is_digit c then
          read_int_loop (<[index := c]> input) (S index) rx'
        else read_int_loop input index rx'
    end.

Definition read_int_from_uart (min_val max_val : Z) : uart Z :=
  let* r := read_int_loop (zeroed 10) 0 in
  let value := atoi (fst r) in
  if (value <? min_val) || (max_val <? value) then uart_ret (-1)
  else uart_ret value.

(** [do c = uart_read_char (); while (c != 'D' && c != 'd' && c != 'R' && c != 'r')] *)
Fixpoint select_mode (rx : list ascii) : outcome pulse_mode_t :=
  match rx with
  | [] => Starved
  | c :: rx' =>
      if char_eqb c "D"%char || char_eqb c "d"%char then Ret MODE_DEFINED rx'
      else if char_eqb c "R"%char || char_eqb c "r"%char then Ret MODE_RANDOM rx'
      else select_mode rx'
  end.

(** [configure_single_output]: the result is the pointer it returns, [None]
    for [NULL].  [malloc_ok] says whether [malloc] finds the memory. *)
Definition configure_single_output (malloc_ok : bool) (output_number pin : Z)
  : uart (option pulse_config_t) :=
  let* interval := read_int_from_uart MIN_INTERVAL_MS MAX_INTERVAL_MS in
  if interval <? 0 then uart_ret None
  else
    let* pulse_duration := read_int_from_uart MIN_PULSE_MS MAX_PULSE_MS in
    if pulse_duration <? 0 then uart_ret None
    else if interval <=? pulse_duration then uart_ret None
    else if negb malloc_ok then uart_ret None
    else
      let* m := select_mode in
      uart_ret (Some (mk_config pin interval pulse_duration m
                                (if output_number =? 1 then "Saída 1" else "Saída 2"))).

(** *** The pulse task *)

(** One record of the log of [generate_pulse]. *)
Record pulse_record : Set := mk_pulse_record {
  rec_label : string;
  rec_count : Z;
  rec_duration : Z;
  rec_interval : Z
}.

(** The time in milliseconds since the task started, and what has been
    written to the pin and to the log so far, oldest first. *)
Record bench : Set := mk_bench {
  elapsed_ms : Z;
  gpio_trace : list gpio_event;
  pulse_log : list pulse_record
}.

Definition gpio_set_level (pin level : Z) (b : bench) : bench :=
  mk_bench (elapsed_ms b) (gpio_trace b ++ [mk_gpio_event (elapsed_ms b) pin level])
           (pulse_log b).

(** [vTaskDelay (pdMS_TO_TICKS (ms))] *)
Definition delay_ms (ms : Z) (b : bench) : bench :=
  mk_bench (elapsed_ms b + ms) (gpio_trace b) (pulse_log b).

Definition generate_pulse (pin : Z) (lbl : string) (count interval pulse_duration : Z)
           (b : bench) : bench :=
  let b := gpio_set_level pin 0 b in
  let b := delay_ms pulse_duration b in
  let b := gpio_set_level pin 1 b in
  mk_bench (elapsed_ms b) (gpio_trace b)
           (pulse_log b ++ [mk_pulse_record lbl count pulse_duration interval]).

(** The interval of one turn of the loop of [pulse_task], for the value
    [rnd] of [esp_random ()]; [None] when the remainder is undefined.  Both
    branches of the conditional expression have the type [uint32_t] of
    [esp_random () % config->interval_ms + 1]; the result is converted to
    [int] by the initialisation of [interval]. *)
Definition next_interval (config : pulse_config_t) (rnd : Z) : option Z :=
  let drawn :=
    match mode config with
    | MODE_RANDOM =>
        match c_umod rnd (interval_ms config) with
        | Some r => Some (to_uint32 (r + 1))
        | None => None
        end
    | MODE_DEFINED => Some (to_uint32 (interval_ms config))
    end in
  match drawn with
  | Some u =>
      let interval := to_int32 u in
      Some (if interval <=? pulse_duration_ms config
            then pulse_duration_ms config + 1 else interval)
  | None => None
  end.

(** One turn of the loop of [pulse_task]. *)
Definition pulse_task_iteration (config : pulse_config_t) (rnd : Z)
           (s : Z * bench) : option (Z * bench) :=
  let '(count, b) := s in
  match next_interval config rnd with
  | None => None
  | Some interval =>
      let count := to_int32 (count + 1) in
      let b := generate_pulse (gpio config) (label config) count interval
                              (pulse_duration_ms config) b in
      let remaining_ms := interval - pulse_duration_ms config in
      let b := if 0 <? remaining_ms then delay_ms remaining_ms b else b in
      Some (count, delay_ms 1 b)
  end.

(** [pulse_task] for as many turns of its endless loop as there are values
    in [rnds], the successive results of [esp_random ()].  A null [config]
    ends the task before the pin is touched. *)
Definition pulse_task (pvParameter : option pulse_config_t) (rnds : list Z)
  : option (Z * bench) :=
  match pvParameter with
  | None => Some (0, mk_bench 0 [] [])
  | Some config =>
      fold_left (fun s rnd => match s with
                              | Some s => pulse_task_iteration config rnd s
                              | None => None
                              end)
                rnds
                (Some (0, gpio_set_level (gpio config) 1 (mk_bench 0 [] [])))
  end.



(** *** The entry point *)

(** [do c = uart_read_char (); while (c != '1' && c != '2')], then [c - '0']. *)
Fixpoint ask_number_of_outputs (rx : list ascii) : outcome Z :=
  match rx with
  | [] => Starved
  | c :: rx' =>
      if char_eqb c "1"%char || char_eqb c "2"%char
      then Ret (code c - code "0"%char) rx'
      else ask_number_of_outputs rx'
  end.

(** [do c = uart_read_char (); while (c != 'S' && c != 's')] *)
Fixpoint wait_for_start (rx : list ascii) : outcome unit :=
  match rx with
  | [] => Starved
  | c :: rx' =>
      if char_eqb c "S"%char || char_eqb c "s"%char then Ret tt rx'
      else wait_for_start rx'
  end.


(** The keys the prompts of the first firmware wait for. *)
Definition is_menu_key (c : ascii) : bool :=
  char_eqb c "1"%char || char_eqb c "2"%char
  || char_eqb c "D"%char || char_eqb c "d"%char
  || char_eqb c "R"%char || char_eqb c "r"%char
  || char_eqb c "S"%char || char_eqb c "s"%char.


End Basic.

(** * The second firmware: sessions with pause, PPS entry and pulse limits *)

Module Session.

Definition GPIO_OUT_1 : Z := 4.
Definition GPIO_OUT_2 : Z := 5.
Definition MAX_PPS : Z := 1000.
Definition MIN_PPS : Z := 1.
Definition MAX_INTERVAL_MS : Z := 3600000.
Definition MIN_INTERVAL_MS : Z := Z.quot 1000 MAX_PPS.
Definition MIN_PULSE_MS : Z := 1.
Definition MAX_PULSE_MS : Z := 10000.
(** Defined by the source and used nowhere in it. *)
Definition MIN_SAFE_INTERVAL_MS : Z := 2.

Inductive pulse_mode_t : Set := MODE_DEFINED | MODE_RANDOM.

Inductive generator_state_t : Set := STATE_RUNNING | STATE_PAUSED | STATE_STOPPED.

Record pulse_config_t : Set := mk_config {
  gpio : Z;
  interval_ms : Z;
  pulse_duration_ms : Z;
  mode : pulse_mode_t;
  label : string;
  max_pulses : Z;
  pps : Z;
  state : generator_state_t;
  pulse_count : Z
}.

#[global] Instance generator_state_eq_dec : EqDecision generator_state_t.
Proof. solve_decision. Defined.

#[global] Instance pulse_mode_eq_dec : EqDecision pulse_mode_t.
Proof. solve_decision. Defined.

(** Assignments to one field of a configuration. *)
Definition set_gpio (v : Z) (c : pulse_config_t) : pulse_config_t :=
  mk_config v (interval_ms c) (pulse_duration_ms c) (mode c) (label c)
            (max_pulses c) (pps c) (state c) (pulse_count c).
Definition set_interval_ms (v : Z) (c : pulse_config_t) : pulse_config_t :=
  mk_config (gpio c) v (pulse_duration_ms c) (mode c) (label c)
            (max_pulses c) (pps c) (state c) (pulse_count c).
Definition set_pulse_duration_ms (v : Z) (c : pulse_config_t) : pulse_config_t :=
  mk_config (gpio c) (interval_ms c) v (mode c) (label c)
            (max_pulses c) (pps c) (state c) (pulse_count c).
Definition set_mode (v : pulse_mode_t) (c : pulse_config_t) : pulse_config_t :=
  mk_config (gpio c) (interval_ms c) (pulse_duration_ms c) v (label c)
            (max_pulses c) (pps c) (state c) (pulse_count c).
Definition set_label (v : string) (c : pulse_config_t) : pulse_config_t :=
  mk_config (gpio c) (interval_ms c) (pulse_duration_ms c) (mode c) v
            (max_pulses c) (pps c) (state c) (pulse_count c).
Definition set_max_pulses (v : Z) (c : pulse_config_t) : pulse_config_t :=
  mk_config (gpio c) (interval_ms c) (pulse_duration_ms c) (mode c) (label c)
            v (pps c) (state c) (pulse_count c).
Definition set_pps (v : Z) (c : pulse_config_t) : pulse_config_t :=
  mk_config (gpio c) (interval_ms c) (pulse_duration_ms c) (mode c) (label c)
            (max_pulses c) v (state c) (pulse_count c).
Definition set_state (v : generator_state_t) (c : pulse_config_t) : pulse_config_t :=
  mk_config (gpio c) (interval_ms c) (pulse_duration_ms c) (mode c) (label c)
            (max_pulses c) (pps c) v (pulse_count c).
Definition set_pulse_count (v : Z) (c : pulse_config_t) : pulse_config_t :=
  mk_config (gpio c) (interval_ms c) (pulse_duration_ms c) (mode c) (label c)
            (max_pulses c) (pps c) (state c) v.

(** *** The configuration dialogue *)

(** The reading loop of [read_int_from_uart]: [input] is the 12-byte buffer,
    [index] the write position.  An erase character moves [index] back and
    leaves the buffer as it is. *)
Fixpoint read_int_loop (input : list ascii) (index : nat) (rx : list ascii)
  {struct rx} : outcome (list ascii * nat) :=
  if (11 <=? index)%nat then Ret (input, index) rx
  else
    match rx with
    | [] => Starved
    | c :: rx' =>
        if is_newline c then
          if (0 <? index)%nat then Ret (input, index) rx'
          else read_int_loop input index rx'
        else if is_erase c then
          read_int_loop input (if (0 <? index)%nat then pred index else index) rx'
        else if is_digit c then
          read_int_loop (<[index := c]> input) (S index) rx'
        else read_int_loop input index rx'
    end.

Definition read_int_from_uart (min_val max_val : Z) : uart Z :=
  let* r := read_int_loop (zeroed 12) 0 in
  if (snd r =? 0)%nat then uart_ret (-1)
  else
    let value := atoi (fst r) in
    if (value <? min_val) || (max_val <? value) then uart_ret (-1)
    else uart_ret value.

Definition ask_number_of_outputs : uart Z :=
  let* c := uart_read_char in
  uart_ret (if (code "1"%char <=? code c) && (code c <=? code "3"%char)
            then code c - code "0"%char else 1).

Definition ask_pps_config : uart Z :=
  let* c := uart_read_char in
  if char_eqb c "P"%char || char_eqb c "p"%char then
    let* pps := read_int_from_uart MIN_PPS MAX_PPS in
    if pps <? 0 then uart_ret (-1)
    else
      let* interval_ms := uart_eval (c_div 1000 pps) in
      uart_ret interval_ms
  else read_int_from_uart MIN_INTERVAL_MS MAX_INTERVAL_MS.

Definition select_mode : uart pulse_mode_t :=
  let* c := uart_read_char in
  uart_ret (if char_eqb c "D"%char || char_eqb c "d"%char
            then MODE_DEFINED else MODE_RANDOM).

Definition ask_pulse_limit : uart Z :=
  let* c := uart_read_char in
  if char_eqb c "S"%char || char_eqb c "s"%char
  then read_int_from_uart 1 1000000
  else uart_ret 0.

(** [configure_output]: [config = &active_configs[output_num - 1]] is written
    field by field, so the array is threaded through; the result pairs the
    returned [bool] with the array as the call leaves it.  (Each test of a
    field reads back the value stored just before.) *)
Definition configure_output (output_num gpio : Z) (cfgs : list pulse_config_t)
  : uart (bool * list pulse_config_t) :=
  let slot := Z.to_nat (output_num - 1) in
  let cfgs := alter (set_gpio gpio) slot cfgs in
  let cfgs := alter (set_label (if output_num =? 1 then "OUT1" else "OUT2")) slot cfgs in
  let* iv := ask_pps_config in
  let cfgs := alter (set_interval_ms iv) slot cfgs in
  if iv <? 0 then uart_ret (false, cfgs)
  else
    let* pd := read_int_from_uart MIN_PULSE_MS MAX_PULSE_MS in
    let cfgs := alter (set_pulse_duration_ms pd) slot cfgs in
    if pd <? 0 then uart_ret (false, cfgs)
    else
      let* m := select_mode in
      let cfgs := alter (set_mode m) slot cfgs in
      let* lim := ask_pulse_limit in
      let cfgs := alter (set_max_pulses lim) slot cfgs in
      let* p := uart_eval (c_div 1000 iv) in
      let cfgs := alter (set_pps p) slot cfgs in
      let cfgs := alter (set_state STATE_STOPPED) slot cfgs in
      let cfgs := alter (set_pulse_count 0) slot cfgs in
      uart_ret (true, cfgs).

(** An element of the static array [active_configs[2]] before any session:
    all fields zero, so the mode is [MODE_DEFINED] and the state
    [STATE_RUNNING], the first constants of their enumerations. *)
Definition blank : pulse_config_t :=
  mk_config 0 0 0 MODE_DEFINED "" 0 0 STATE_RUNNING 0.

(** *** The clock and the outputs *)

(** Modelled from the spec: the tick rate [configTICK_RATE_HZ] of the FreeRTOS
    configuration, which is not among the sources.  The clock source of the
    spec is a "monotonic millisecond tick counter": 1000 ticks a second. *)
Definition configTICK_RATE_HZ : Z := 1000.
Definition portTICK_PERIOD_MS : Z := Z.quot 1000 configTICK_RATE_HZ.
Definition pdMS_TO_TICKS (ms : Z) : Z := Z.quot (ms * configTICK_RATE_HZ) 1000.

(** One record of the per-pulse [ESP_LOGI]: the tick count at the call, the
    label and the pulse number. *)
Record pulse_record : Set := mk_pulse_record {
  rec_tick : Z;
  rec_label : string;
  rec_number : Z
}.

(** The globals of the firmware, the tick counter of the kernel (before its
    reduction to 32 bits) and what has been written to the pins and to the
    log so far, oldest first. *)
Record world : Set := mk_world {
  active_configs : list pulse_config_t;
  active_outputs : Z;
  system_running : bool;
  pause_requested : bool;
  tick_count : Z;
  gpio_trace : list gpio_event;
  pulse_log : list pulse_record
}.

Definition set_active_configs (v : list pulse_config_t) (w : world) : world :=
  mk_world v (active_outputs w) (system_running w) (pause_requested w)
           (tick_count w) (gpio_trace w) (pulse_log w).
Definition set_system_running (v : bool) (w : world) : world :=
  mk_world (active_configs w) (active_outputs w) v (pause_requested w)
           (tick_count w) (gpio_trace w) (pulse_log w).
Definition set_pause_requested (v : bool) (w : world) : world :=
  mk_world (active_configs w) (active_outputs w) (system_running w) v
           (tick_count w) (gpio_trace w) (pulse_log w).
Definition set_tick_count (v : Z) (w : world) : world :=
  mk_world (active_configs w) (active_outputs w) (system_running w)
           (pause_requested w) v (gpio_trace w) (pulse_log w).
Definition set_gpio_trace (v : list gpio_event) (w : world) : world :=
  mk_world (active_configs w) (active_outputs w) (system_running w)
           (pause_requested w) (tick_count w) v (pulse_log w).
Definition set_pulse_log (v : list pulse_record) (w : world) : world :=
  mk_world (active_configs w) (active_outputs w) (system_running w)
           (pause_requested w) (tick_count w) (gpio_trace w) v.

(** [active_configs[i].field = v], and [config->field = v] for
    [config = &active_configs[i]]. *)
Definition update_config (i : nat) (f : pulse_config_t -> pulse_config_t)
           (w : world) : world :=
  set_active_configs (alter f i (active_configs w)) w.

Definition gpio_set_level (pin level : Z) (w : world) : world :=
  set_gpio_trace (gpio_trace w ++ [mk_gpio_event (tick_count w) pin level]) w.

(** The calling task sleeps for [ticks] ticks.  A run follows one task, and
    the tick counter moves on by the sleep of the task that is followed. *)
Definition vTaskDelay (ticks : Z) (w : world) : world :=
  set_tick_count (tick_count w + ticks) w.

Definition xTaskGetTickCount (w : world) : Z := to_uint32 (tick_count w).

Definition ESP_LOGI_pulse (lbl : string) (number : Z) (w : world) : world :=
  set_pulse_log (pulse_log w ++ [mk_pulse_record (tick_count w) lbl number]) w.

Definition generate_pulse (pin pulse_duration : Z) (w : world) : world :=
  let w := gpio_set_level pin 0 w in
  let w := vTaskDelay (pdMS_TO_TICKS pulse_duration) w in
  gpio_set_level pin 1 w.

(** *** Pause and resume *)

(** [for (int i = 0; i < active_outputs; i++) active_configs[i].state = s] *)
Definition broadcast_state (s : generator_state_t) (w : world) : world :=
  fold_left (fun w i => update_config i (set_state s) w)
            (seq 0 (Z.to_nat (active_outputs w))) w.

Definition handle_pause_system (w : world) : world :=
  let w := set_pause_requested (negb (pause_requested w)) w in
  if pause_requested w
  then broadcast_state STATE_PAUSED w
  else broadcast_state STATE_RUNNING w.

(** The check of the monitoring loop of [app_main]: is one of the first
    [active_outputs] channels not [STATE_STOPPED]? *)
Definition tasks_running (w : world) : bool :=
  existsb (fun c => negb (bool_decide (state c = STATE_STOPPED)))
          (take (Z.to_nat (active_outputs w)) (active_configs w)).

(** One turn of the monitoring loop: [cmd] is the byte read from the serial
    line within the 100 ms time-out, if any.  The result says whether the
    loop goes on. *)
Definition monitor_iteration (cmd : option ascii) (w : world) : world * bool :=
  let w := match cmd with
           | Some c => if char_eqb c " "%char then handle_pause_system w else w
           | None => w
           end in
  let running := tasks_running w in
  let w := vTaskDelay (pdMS_TO_TICKS 100) w in
  (w, running && system_running w).

(** *** The pulse task *)

(** Where a pulse task is: at the head of its loop, with its [config]
    pointer (an index into [active_configs]) and its local
    [last_pulse_time]; deleted; or stopped by the use of a pointer outside
    the array, which [app_main] never hands out. *)
Inductive task : Set :=
| Looping (config : nat) (last_pulse_time : Z)
| Deleted
| Faulted.

#[global] Instance task_eq_dec : EqDecision task.
Proof. solve_decision. Defined.

(** [pulse_task] up to the head of its loop.  [None] is the null pointer. *)
Definition pulse_task (pvParameter : option nat) (w : world) : world * task :=
  match pvParameter with
  | None => (w, Deleted)
  | Some i =>
      match active_configs w !! i with
      | None => (w, Faulted)
      | Some c =>
          let w := gpio_set_level (gpio c) 1 w in
          let w := update_config i (set_state STATE_RUNNING) w in
          let w := update_config i (set_pulse_count 0) w in
          (w, Looping i 0)
      end
  end.

(** The end-of-run signal: three times low, 100 ms, high, 100 ms. *)
Definition end_signal (pin : Z) (w : world) : world :=
  Nat.iter 3 (fun w =>
                let w := gpio_set_level pin 0 w in
                let w := vTaskDelay (pdMS_TO_TICKS 100) w in
                let w := gpio_set_level pin 1 w in
                vTaskDelay (pdMS_TO_TICKS 100) w) w.

(** The loop condition of [pulse_task]. *)
Definition loop_condition (w : world) (c : pulse_config_t) : bool :=
  system_running w && ((max_pulses c =? 0) || (pulse_count c <? max_pulses c)).

(** [current_time - last_pulse_time >= config->interval_ms]: the difference
    is a [uint32_t], so the [int] on the right is converted to one. *)
Definition pulse_due (current_time last_pulse_time : Z) (c : pulse_config_t) : bool :=
  to_uint32 (interval_ms c) <=? to_uint32 (current_time - last_pulse_time).

(** From the head of the loop: one evaluation of the loop condition followed
    by one turn of the loop body, or by the code after the loop. *)
Definition pulse_task_iteration (i : nat) (last_pulse_time : Z) (w : world)
  : world * task :=
  match active_configs w !! i with
  | None => (w, Faulted)
  | Some c =>
      if loop_condition w c then
        if bool_decide (state c = STATE_PAUSED) then
          (vTaskDelay (pdMS_TO_TICKS 100) w, Looping i last_pulse_time)
        else
          let current_time := to_uint32 (xTaskGetTickCount w * portTICK_PERIOD_MS) in
          if pulse_due current_time last_pulse_time c then
            let w := ESP_LOGI_pulse (label c) (pulse_count c + 1) w in
            let w := generate_pulse (gpio c) (pulse_duration_ms c) w in
            let w := update_config i (fun c => set_pulse_count (to_int32 (pulse_count c + 1)) c) w in
            (vTaskDelay (pdMS_TO_TICKS 1) w, Looping i current_time)
          else
            (vTaskDelay (pdMS_TO_TICKS 1) w, Looping i last_pulse_time)
      else
        let w := update_config i (set_state STATE_STOPPED) w in
        let w := end_signal (gpio c) w in
        (w, Deleted)
  end.

(** *** Runs *)

(** What can happen next to a pulse task and the globals it shares:
    the task executes one [pulse_task_iteration]; the monitoring loop
    receives the space bar; time passes while the task is not running; the
    running flag is cleared. *)
Inductive event : Set :=
| Poll
| Space
| Elapse (ticks : Z)
| Halt.

Definition step (s : world * task) (e : event) : world * task :=
  let '(w, t) := s in
  match e with
  | Poll =>
      match t with
      | Looping i last => pulse_task_iteration i last w
      | Deleted => (w, Deleted)
      | Faulted => (w, Faulted)
      end
  | Space => (handle_pause_system w, t)
  | Elapse d => (vTaskDelay d w, t)
  | Halt => (set_system_running false w, t)
  end.

Definition run (es : list event) (s : world * task) : world * task :=
  fold_left step es s.

(** The ticks at which pulses were logged. *)
Definition pulse_ticks (w : world) : list Z := map rec_tick (pulse_log w).

(** *** Shapes of traces *)

(** What one pulse that starts at tick [t] writes to the pin. *)
Definition pulse_events (pin t pulse_duration : Z) : list gpio_event :=
  [mk_gpio_event t pin 0; mk_gpio_event (t + pulse_duration) pin 1].

(** The end-of-run signal that starts at tick [t]. *)
Definition end_toggles (pin t : Z) : list gpio_event :=
  [mk_gpio_event t pin 0; mk_gpio_event (t + 100) pin 1;
   mk_gpio_event (t + 200) pin 0; mk_gpio_event (t + 300) pin 1;
   mk_gpio_event (t + 400) pin 0; mk_gpio_event (t + 500) pin 1].

(** The log records of the pulses that start at the ticks [ts], the first of
    them with the number [first]. *)
Definition pulse_records (lbl : string) (first : Z) (ts : list Z) : list pulse_record :=
  imap (fun k t => mk_pulse_record t lbl (first + Z.of_nat k)) ts.

(** The world after a pulse of channel [i], configured as [c], fired from [w]. *)
Definition fired (i : nat) (c : pulse_config_t) (w : world) : world :=
  mk_world (alter (fun c => set_pulse_count (to_int32 (pulse_count c + 1)) c) i
                  (active_configs w))
           (active_outputs w) (system_running w) (pause_requested w)
           (tick_count w + pulse_duration_ms c + 1)
           (gpio_trace w ++ pulse_events (gpio c) (tick_count w) (pulse_duration_ms c))
           (pulse_log w ++ [mk_pulse_record (tick_count w) (label c) (pulse_count c + 1)]).

(** The world after channel [i] left its loop in [w]. *)
Definition finished (i : nat) (c : pulse_config_t) (w : world) : world :=
  mk_world (alter (set_state STATE_STOPPED) i (active_configs w))
           (active_outputs w) (system_running w) (pause_requested w)
           (tick_count w + 600)
           (gpio_trace w ++ end_toggles (gpio c) (tick_count w))
           (pulse_log w).

(** The world after channel [i], configured as [c] at the head of its loop in
    [w], fired pulses at the ticks [ts] and then gave its end-of-run signal
    from tick [t_end] on. *)
Definition completed (i : nat) (c : pulse_config_t) (ts : list Z) (t_end : Z)
           (w : world) : world :=
  mk_world (<[i := set_state STATE_STOPPED
                     (set_pulse_count (pulse_count c + Z.of_nat (length ts)) c)]>
              (active_configs w))
           (active_outputs w) (system_running w) (pause_requested w)
           (t_end + 600)
           (gpio_trace w
            ++ concat (map (fun t => pulse_events (gpio c) t (pulse_duration_ms c)) ts)
            ++ end_toggles (gpio c) t_end)
           (pulse_log w ++ pulse_records (label c) (pulse_count c + 1) ts).

(** Events during which a task is only polled or left waiting, and the ticks
    that pass during them while the task is paused. *)
Definition is_waiting (e : event) : bool :=
  match e with
  | Poll => true
  | Elapse d => 0 <=? d
  | Space | Halt => false
  end.

Definition waited (es : list event) : Z :=
  fold_right (fun e acc => match e with
                           | Poll => 100 + acc
                           | Elapse d => d + acc
                           | Space | Halt => acc
                           end) 0 es.

(** *** Sample sessions *)

(** Channel 1 at one pulse a second, pulses of 100 ms, with the pulse limit
    [limit]. *)
Definition sample_config (limit : Z) : pulse_config_t :=
  mk_config GPIO_OUT_1 1000 100 MODE_DEFINED "OUT1" limit 1 STATE_STOPPED 0.

(** A session with that channel alone, about to start its task when the tick
    counter reads [tick]. *)
Definition sample_session (limit tick : Z) : world :=
  mk_world [sample_config limit; blank] 1 true false tick [] [].

(** A session with two channels: channel 1 limited to one pulse, channel 2
    (every two seconds) without limit. *)
Definition sample_pair (tick : Z) : world :=
  mk_world [sample_config 1;
            mk_config GPIO_OUT_2 2000 100 MODE_DEFINED "OUT2" 0 0 STATE_RUNNING 0]
           2 true false tick [] [].

(** *** The configuration cycle of [app_main] *)






(** *** Invariants of runs *)

(** Channel [i] has the pulse limit [limit], its task is at the head of its
    loop or deleted, its counter lies between 0 and the limit, and the log
    holds [base] records and one more for each pulse counted. *)
Definition counted (limit : Z) (i : nat) (base : nat) (s : world * task) : Prop :=
  ((exists lp, s.2 = Looping i lp) \/ s.2 = Deleted) /\
  exists c, active_configs s.1 !! i = Some c /\
            max_pulses c = limit /\
            0 <= pulse_count c <= limit /\
            length (pulse_log s.1) = (base + Z.to_nat (pulse_count c))%nat.

(** The last level written to a pin is the idle level 1. *)
Definition line_idle (w : world) : Prop :=
  exists ev, last (gpio_trace w) = Some ev /\ ev_level ev = 1.

(** Whether an event leaves the running flag alone. *)
Definition keeps_running (e : event) : bool :=
  match e with
  | Halt => false
  | _ => true
  end.

End Session.

(** * Facts about C integers and characters *)

Section Integers.

Lemma to_uint32_range z : 0 <= to_uint32 z < UINT32_MODULUS.
Proof. unfold to_uint32, UINT32_MODULUS. apply Z.mod_pos_bound. lia. Qed.

Lemma to_uint32_small z : 0 <= z < UINT32_MODULUS -> to_uint32 z = z.
Proof. intros H. unfold to_uint32. apply Z.mod_small. exact H. Qed.

Lemma to_int32_small z : 0 <= z <= INT_MAX -> to_int32 z = z.
Proof.
  intros H. unfold to_int32.
  rewrite to_uint32_small by (unfold UINT32_MODULUS, INT_MAX in *; lia).
  destruct (Z.leb_spec z INT_MAX); lia.
Qed.

End Integers.

Section Characters.

Lemma digit_code c : is_digit c = true -> 48 <= code c <= 57.
Proof.
  unfold is_digit. change (code "0"%char) with 48. change (code "9"%char) with 57.
  intros H. apply andb_true_iff in H as [H1 H2]. apply Z.leb_le in H1, H2. lia.
Qed.

Lemma digit_not_control c :
  is_digit c = true -> is_newline c = false /\ is_erase c = false.
Proof.
  intros H. apply digit_code in H.
  unfold is_newline, is_erase, char_eqb.
  change (code CR) with 13. change (code LF) with 10.
  split; apply orb_false_iff; split; apply Z.eqb_neq; lia.
Qed.

Lemma digits_value_stop acc ds tl :
  forallb is_digit ds = true ->
  digits_value acc (ds ++ NUL :: tl) = digits_value acc ds.
Proof.
  revert acc. induction ds as [|c ds IH]; intros acc H; simpl in *.
  - reflexivity.
  - apply andb_true_iff in H as [Hc Hds]. rewrite Hc. apply IH, Hds.
Qed.

Lemma digits_value_lower acc ds : 0 <= acc -> acc <= digits_value acc ds.
Proof.
  revert acc. induction ds as [|c ds IH]; intros acc H; simpl.
  - lia.
  - destruct (is_digit c) eqn:Hc; [|lia].
    apply digit_code in Hc. change (code "0"%char) with 48.
    etransitivity; [|apply IH]; lia.
Qed.

Lemma decimal_value_nonneg ds : 0 <= decimal_value ds.
Proof. apply digits_value_lower. lia. Qed.

(** The character of a digit. *)
Lemma digit_char k :
  0 <= k <= 9 ->
  let c := ascii_of_nat (Z.to_nat (48 + k)) in
  is_digit c = true /\ code c - code "0"%char = k.
Proof.
  intros H.
  assert (E : k = 0 \/ k = 1 \/ k = 2 \/ k = 3 \/ k = 4 \/ k = 5 \/ k = 6 \/
              k = 7 \/ k = 8 \/ k = 9) by lia.
  repeat (destruct E as [->|E]; [split; reflexivity|]).
  subst k. split; reflexivity.
Qed.

Lemma decimal_digits_value fuel : forall n acc,
  0 <= n < 10 ^ Z.of_nat fuel ->
  digits_value 0 (decimal_digits fuel n acc) = digits_value n acc.
Proof.
  induction fuel as [|fuel IH]; intros n acc Hn.
  - simpl in *. replace n with 0 by lia. reflexivity.
  - cbn [decimal_digits].
    assert (Hm : 0 <= n mod 10 <= 9) by (pose proof (Z.mod_pos_bound n 10); lia).
    destruct (digit_char _ Hm) as [Hd Hc].
    rewrite Nat2Z.inj_succ, Z.pow_succ_r in Hn by lia.
    assert (Hdiv : 0 <= n / 10 < 10 ^ Z.of_nat fuel).
    { split; [apply Z.div_pos; lia|apply Z.div_lt_upper_bound; lia]. }
    pose proof (Z.div_mod n 10 ltac:(lia)) as Hdm.
    destruct (Z.eqb_spec (n / 10) 0) as [E|E].
    + cbn [digits_value]. rewrite Hd, Hc. f_equal. lia.
    + rewrite IH by exact Hdiv. cbn [digits_value]. rewrite Hd, Hc. f_equal. lia.
Qed.

Lemma decimal_digits_shape fuel : forall n acc,
  0 <= n ->
  forallb is_digit acc = true ->
  forallb is_digit (decimal_digits fuel n acc) = true /\
  (length (decimal_digits fuel n acc) <= fuel + length acc)%nat /\
  (fuel <> O -> decimal_digits fuel n acc <> []).
Proof.
  induction fuel as [|fuel IH]; intros n acc Hn Hacc.
  - simpl. repeat split; [exact Hacc|lia|congruence].
  - cbn [decimal_digits].
    assert (Hm : 0 <= n mod 10 <= 9) by (pose proof (Z.mod_pos_bound n 10); lia).
    destruct (digit_char _ Hm) as [Hd _].
    destruct (Z.eqb_spec (n / 10) 0) as [E|E].
    + repeat split; [simpl; rewrite Hd; exact Hacc|simpl; lia|congruence].
    + destruct (IH (n / 10) (ascii_of_nat (Z.to_nat (48 + n mod 10)) :: acc))
        as (H1 & H2 & H3).
      * apply Z.div_pos; lia.
      * simpl. rewrite Hd. exact Hacc.
      * repeat split; [exact H1|simpl in H2; lia|].
        intros _. destruct fuel as [|fuel']; [simpl; congruence|apply H3; congruence].
Qed.

(** Every number below 10^10 is the value of its decimal entry. *)
Lemma decimal_entry n :
  0 <= n < 10 ^ 10 ->
  well_formed_entry (decimal n) = true /\ decimal_value (decimal n) = n.
Proof.
  intros Hn. unfold decimal, decimal_value. split.
  - destruct (decimal_digits_shape 10 n [] ltac:(lia) eq_refl) as (H1 & H2 & H3).
    unfold well_formed_entry. rewrite H1.
    rewrite bool_decide_eq_false_2 by (apply H3; congruence).
    change (length (@nil ascii)) with O in H2.
    rewrite (proj2 (Nat.leb_le _ _)) by lia. reflexivity.
  - rewrite decimal_digits_value by (change (Z.of_nat 10) with 10; exact Hn).
    reflexivity.
Qed.

Lemma insert_at_end (pre : list ascii) (c : ascii) (n : nat) :
  <[length pre := c]> (pre ++ zeroed (S n)) = (pre ++ [c]) ++ zeroed n.
Proof.
  induction pre as [|a pre IH]; simpl.
  - reflexivity.
  - f_equal. exact IH.
Qed.

End Characters.

(** * The configuration dialogue of the second firmware *)

Module DialogueFacts.
Import Session.

Lemma read_int_loop_cons input index c rx' :
  (index < 11)%nat ->
  read_int_loop input index (c :: rx') =
  if is_newline c then
    if (0 <? index)%nat then Ret (input, index) rx'
    else read_int_loop input index rx'
  else if is_erase c then
    read_int_loop input (if (0 <? index)%nat then pred index else index) rx'
  else if is_digit c then
    read_int_loop (<[index := c]> input) (S index) rx'
  else read_int_loop input index rx'.
Proof.
  intros H. cbn [read_int_loop].
  destruct (Nat.leb_spec 11 index); [lia|reflexivity].
Qed.

(** Digits typed without correction fill the buffer from the left. *)
Lemma read_int_loop_entry ds : forall pre rest,
  forallb is_digit ds = true ->
  (0 < length pre + length ds <= 10)%nat ->
  read_int_loop (pre ++ zeroed (12 - length pre)) (length pre) (ds ++ CR :: rest)
  = Ret ((pre ++ ds) ++ zeroed (12 - length (pre ++ ds)), length (pre ++ ds)) rest.
Proof.
  induction ds as [|c ds IH]; intros pre rest Hd Hlen; simpl in Hd, Hlen.
  - rewrite app_nil_r. cbn [app].
    rewrite read_int_loop_cons by lia.
    change (is_newline CR) with true. cbv iota.
    destruct (Nat.ltb_spec 0 (length pre)); [reflexivity|lia].
  - apply andb_true_iff in Hd as [Hc Hds].
    destruct (digit_not_control c Hc) as [Hn He].
    cbn [app]. rewrite read_int_loop_cons by lia.
    rewrite Hn, He, Hc.
    replace (12 - length pre)%nat with (S (12 - length (pre ++ [c])))
      by (rewrite length_app; simpl; lia).
    rewrite insert_at_end.
    replace (S (length pre)) with (length (pre ++ [c]))
      by (rewrite length_app; simpl; lia).
    rewrite IH; [|exact Hds|rewrite length_app; simpl; lia].
    replace ((pre ++ [c]) ++ ds) with (pre ++ c :: ds)
      by (rewrite <- app_assoc; reflexivity).
    reflexivity.
Qed.

(** A well-formed entry is returned when it lies within the bounds and
    answered by -1 otherwise. *)
Lemma read_int_from_uart_entry min_val max_val ds rest :
  well_formed_entry ds = true ->
  max_val < INT_MAX ->
  read_int_from_uart min_val max_val (ds ++ CR :: rest)
  = Ret (if (min_val <=? decimal_value ds) && (decimal_value ds <=? max_val)
         then decimal_value ds else -1) rest.
Proof.
  unfold well_formed_entry. intros Hwf Hmax.
  apply andb_true_iff in Hwf as [Hwf Hd]. apply andb_true_iff in Hwf as [Hne Hlen].
  apply negb_true_iff, bool_decide_eq_false in Hne. apply Nat.leb_le in Hlen.
  assert (Hpos : (0 < length ds)%nat) by (destruct ds; simpl; [congruence|lia]).
  unfold read_int_from_uart, uart_bind.
  pose proof (read_int_loop_entry ds [] rest Hd) as Hloop.
  cbn [app length Nat.add] in Hloop. rewrite Nat.sub_0_r in Hloop.
  rewrite Hloop by lia. cbn [fst snd].
  destruct (Nat.eqb_spec (length ds) 0) as [E|_]; [lia|].
  unfold atoi.
  replace (12 - length ds)%nat with (S (11 - length ds)) by lia.
  unfold zeroed. cbn [replicate].
  rewrite digits_value_stop by exact Hd.
  fold (decimal_value ds).
  pose proof (decimal_value_nonneg ds) as Hnn.
  unfold uart_ret.
  destruct (Z.min_spec (decimal_value ds) INT_MAX) as [[Hlt ->]|[Hge ->]].
  - destruct (Z.ltb_spec (decimal_value ds) min_val),
      (Z.ltb_spec max_val (decimal_value ds)),
      (Z.leb_spec min_val (decimal_value ds)),
      (Z.leb_spec (decimal_value ds) max_val);
      simpl; try reflexivity; lia.
  - destruct (Z.ltb_spec INT_MAX min_val), (Z.ltb_spec max_val INT_MAX),
      (Z.leb_spec min_val (decimal_value ds)),
      (Z.leb_spec (decimal_value ds) max_val);
      simpl; try reflexivity; lia.
Qed.

(** The reading loop executes no arithmetic that could be undefined. *)
Lemma read_int_loop_defined rx : forall input index,
  defined (read_int_loop input index rx) = true.
Proof.
  induction rx as [|c rx IH]; intros input index; cbn [read_int_loop].
  - destruct (11 <=? index)%nat; reflexivity.
  - destruct (11 <=? index)%nat; [reflexivity|].
    destruct (is_newline c).
    + destruct (0 <? index)%nat; [reflexivity|apply IH].
    + destruct (is_erase c); [apply IH|].
      destruct (is_digit c); apply IH.
Qed.

(** Whatever arrives on the line, [read_int_from_uart] answers -1 or a
    value within its bounds. *)
Lemma read_int_from_uart_range min_val max_val rx :
  match read_int_from_uart min_val max_val rx with
  | Ret v _ => v = -1 \/ min_val <= v <= max_val
  | Starved => True
  | Undefined => False
  end.
Proof.
  unfold read_int_from_uart, uart_bind.
  pose proof (read_int_loop_defined rx (zeroed 12) 0) as Hd.
  destruct (read_int_loop (zeroed 12) 0 rx) as [[input index] rest| |];
    [|exact I|discriminate].
  cbn [fst snd].
  destruct (index =? 0)%nat; [left; reflexivity|].
  destruct (Z.ltb_spec (atoi input) min_val); [left; reflexivity|].
  destruct (Z.ltb_spec max_val (atoi input)); [left; reflexivity|].
  right. simpl. lia.
Qed.

(** The interval [ask_pps_config] hands on is -1 or at least 1 ms. *)
Lemma ask_pps_config_range rx :
  match ask_pps_config rx with
  | Ret v _ => v = -1 \/ 1 <= v <= MAX_INTERVAL_MS
  | Starved => True
  | Undefined => False
  end.
Proof.
  unfold ask_pps_config, uart_bind at 1, uart_read_char.
  destruct rx as [|c rx]; [exact I|].
  destruct (char_eqb c "P"%char || char_eqb c "p"%char).
  - unfold uart_bind at 1.
    pose proof (read_int_from_uart_range MIN_PPS MAX_PPS rx) as Hr.
    destruct (read_int_from_uart MIN_PPS MAX_PPS rx) as [pps rest| |];
      [|exact I|exact Hr].
    destruct (Z.ltb_spec pps 0); [left; reflexivity|].
    unfold MIN_PPS, MAX_PPS in Hr.
    assert (Hp : 1 <= pps <= 1000) by lia.
    unfold uart_bind, uart_eval, c_div, uart_ret.
    destruct (Z.eqb_spec pps 0); [lia|].
    right. unfold MAX_INTERVAL_MS.
    assert (1000 ÷ pps <= 1000) by (apply Z.quot_le_upper_bound; nia).
    assert (1 <= 1000 ÷ pps) by (apply Z.quot_le_lower_bound; lia).
    lia.
  - pose proof (read_int_from_uart_range MIN_INTERVAL_MS MAX_INTERVAL_MS rx) as Hr.
    destruct (read_int_from_uart MIN_INTERVAL_MS MAX_INTERVAL_MS rx); exact Hr.
Qed.

(** *** Entries through the menus *)

Lemma ask_pps_config_interval_entry ds rest :
  well_formed_entry ds = true ->
  ask_pps_config ("I"%char :: ds ++ CR :: rest)
  = Ret (if (1 <=? decimal_value ds) && (decimal_value ds <=? 3600000)
         then decimal_value ds else -1) rest.
Proof.
  intros Hwf. unfold ask_pps_config, uart_bind at 1, uart_read_char.
  change (char_eqb "I" "P" || char_eqb "I" "p") with false. cbv iota.
  apply read_int_from_uart_entry; [exact Hwf|reflexivity].
Qed.

Lemma ask_pps_config_pps_entry ds rest :
  well_formed_entry ds = true ->
  ask_pps_config ("P"%char :: ds ++ CR :: rest)
  = Ret (if (1 <=? decimal_value ds) && (decimal_value ds <=? 1000)
         then Z.quot 1000 (decimal_value ds) else -1) rest.
Proof.
  intros Hwf. unfold ask_pps_config, uart_bind at 1, uart_read_char.
  change (char_eqb "P" "P" || char_eqb "P" "p") with true. cbv iota.
  unfold uart_bind at 1.
  rewrite (read_int_from_uart_entry MIN_PPS MAX_PPS ds rest Hwf) by reflexivity.
  unfold MIN_PPS, MAX_PPS.
  destruct (Z.leb_spec 1 (decimal_value ds)) as [H1|H1];
    destruct (Z.leb_spec (decimal_value ds) 1000) as [H2|H2]; cbn [andb];
    try reflexivity.
  destruct (Z.ltb_spec (decimal_value ds) 0); [lia|].
  unfold uart_bind, uart_eval, c_div, uart_ret.
  destruct (Z.eqb_spec (decimal_value ds) 0); [lia|reflexivity].
Qed.

Lemma ask_pulse_limit_entry ds rest :
  well_formed_entry ds = true ->
  ask_pulse_limit ("S"%char :: ds ++ CR :: rest)
  = Ret (if (1 <=? decimal_value ds) && (decimal_value ds <=? 1000000)
         then decimal_value ds else -1) rest.
Proof.
  intros Hwf. unfold ask_pulse_limit, uart_bind at 1, uart_read_char.
  change (char_eqb "S" "S" || char_eqb "S" "s") with true. cbv iota.
  apply read_int_from_uart_entry; [exact Hwf|reflexivity].
Qed.

Lemma quot_1000_range pps : 1 <= pps <= 1000 -> 1 <= Z.quot 1000 pps <= 1000.
Proof.
  intros H. split.
  - apply Z.quot_le_lower_bound; lia.
  - apply Z.quot_le_upper_bound; nia.
Qed.

(** *** The claims on the numeric entries *)

(** C6, refuted as stated: the lower bound of a direct interval entry is
    [MIN_INTERVAL_MS = 1000 / MAX_PPS = 1], so the entry "1" is accepted and
    returned, where the claim has it rejected (answered by -1). *)
Lemma direct_interval_of_1ms_accepted :
  MIN_INTERVAL_MS = 1 /\
  ask_pps_config (chars "I1" ++ [CR]) = Ret 1 [] /\
  ask_pps_config (chars "I1" ++ [CR]) <> Ret (-1) [].
Proof. repeat split. discriminate. Qed.

(** C6, amended: for every well-formed entry, the validation accepts (gives
    back the value) exactly within these bounds and rejects (answers -1)
    outside them: direct interval [1, 3600000] ms, PPS [1, 1000], pulse
    duration [1, 10000] ms, pulse limit [1, 1000000], and 0 for a session
    without limit. *)
Theorem numeric_entry_bounds (ds rest : list ascii) :
  well_formed_entry ds = true ->
  let v := decimal_value ds in
  let within lo hi := (lo <=? v) && (v <=? hi) in
  ask_pps_config ("I"%char :: ds ++ CR :: rest)
    = Ret (if within 1 3600000 then v else -1) rest /\
  read_int_from_uart MIN_PPS MAX_PPS (ds ++ CR :: rest)
    = Ret (if within 1 1000 then v else -1) rest /\
  read_int_from_uart MIN_PULSE_MS MAX_PULSE_MS (ds ++ CR :: rest)
    = Ret (if within 1 10000 then v else -1) rest /\
  ask_pulse_limit ("S"%char :: ds ++ CR :: rest)
    = Ret (if within 1 1000000 then v else -1) rest /\
  ask_pulse_limit ("N"%char :: rest) = Ret 0 rest.
Proof.
  intros Hwf v within. subst v within. cbv beta.
  split; [apply ask_pps_config_interval_entry, Hwf|].
  split; [apply read_int_from_uart_entry; [exact Hwf|reflexivity]|].
  split; [apply read_int_from_uart_entry; [exact Hwf|reflexivity]|].
  split; [apply ask_pulse_limit_entry, Hwf|reflexivity].
Qed.

(** The bounds at work on the entry "3600000": the largest interval, and too
    large for the other three quantities. *)
Lemma numeric_entry_bounds_witness :
  well_formed_entry (chars "3600000") = true /\
  ask_pps_config (chars "I3600000" ++ [CR]) = Ret 3600000 [] /\
  read_int_from_uart MIN_PPS MAX_PPS (chars "3600000" ++ [CR]) = Ret (-1) [] /\
  read_int_from_uart MIN_PULSE_MS MAX_PULSE_MS (chars "3600000" ++ [CR]) = Ret (-1) [] /\
  ask_pulse_limit (chars "S3600000" ++ [CR]) = Ret (-1) [] /\
  ask_pulse_limit (chars "N") = Ret 0 [].
Proof.
  split; [reflexivity|].
  exact (numeric_entry_bounds (chars "3600000") [] eq_refl).
Defined.

(** C7: for every PPS from 1 to 1000, typed in decimal, the interval is
    [1000 / pps] with the quotient truncated, and the configuration that
    results is the one the direct entry of that interval gives. *)
Theorem pps_to_interval_truncates (pps : Z) (rest : list ascii) :
  1 <= pps <= 1000 ->
  ask_pps_config ("P"%char :: decimal pps ++ CR :: rest) = Ret (Z.quot 1000 pps) rest /\
  Z.quot 1000 pps * pps <= 1000 < (Z.quot 1000 pps + 1) * pps /\
  forall (output_num pin : Z) (cfgs : list pulse_config_t),
    configure_output output_num pin cfgs ("P"%char :: decimal pps ++ CR :: rest)
    = configure_output output_num pin cfgs
                       ("I"%char :: decimal (Z.quot 1000 pps) ++ CR :: rest).
Proof.
  intros Hp.
  destruct (decimal_entry pps ltac:(lia)) as [Hwf Hv].
  pose proof (quot_1000_range pps Hp) as Hq.
  destruct (decimal_entry (Z.quot 1000 pps) ltac:(lia)) as [Hwf' Hv'].
  assert (HP : ask_pps_config ("P"%char :: decimal pps ++ CR :: rest)
               = Ret (Z.quot 1000 pps) rest).
  { rewrite ask_pps_config_pps_entry by exact Hwf. rewrite Hv.
    destruct (Z.leb_spec 1 pps); [|lia].
    destruct (Z.leb_spec pps 1000); [reflexivity|lia]. }
  assert (HI : ask_pps_config ("I"%char :: decimal (Z.quot 1000 pps) ++ CR :: rest)
               = Ret (Z.quot 1000 pps) rest).
  { rewrite ask_pps_config_interval_entry by exact Hwf'. rewrite Hv'.
    destruct (Z.leb_spec 1 (Z.quot 1000 pps)); [|lia].
    destruct (Z.leb_spec (Z.quot 1000 pps) 3600000); [reflexivity|lia]. }
  split; [exact HP|]. split.
  - rewrite Z.quot_div_nonneg by lia.
    pose proof (Z.div_mod 1000 pps ltac:(lia)).
    pose proof (Z.mod_pos_bound 1000 pps ltac:(lia)). nia.
  - intros output_num pin cfgs. unfold configure_output.
    unfold uart_bind. rewrite HP, HI. reflexivity.
Qed.

(** The conversions the specification lists: 3 PPS is 333 ms and 500 PPS is
    2 ms. *)
Lemma pps_to_interval_truncates_witness :
  ask_pps_config (chars "P3" ++ [CR]) = Ret 333 [] /\
  ask_pps_config (chars "P500" ++ [CR]) = Ret 2 [].
Proof.
  split.
  - exact (proj1 (pps_to_interval_truncates 3 [] ltac:(lia))).
  - exact (proj1 (pps_to_interval_truncates 500 [] ltac:(lia))).
Defined.

(** C10: whatever arrives on the serial line, neither [1000 / pps] in
    [ask_pps_config] nor [1000 / config->interval_ms] in [configure_output]
    divides by zero: both computations stay defined. *)
Theorem divisions_never_by_zero (output_num pin : Z) (cfgs : list pulse_config_t)
        (rx : list ascii) :
  defined (ask_pps_config rx) = true /\
  defined (configure_output output_num pin cfgs rx) = true.
Proof.
  pose proof (ask_pps_config_range rx) as Ha.
  split.
  - destruct (ask_pps_config rx); [reflexivity|reflexivity|contradiction].
  - unfold configure_output. unfold uart_bind at 1.
    destruct (ask_pps_config rx) as [iv rx1| |]; [|reflexivity|contradiction].
    destruct (Z.ltb_spec iv 0) as [Hneg|Hpos]; [reflexivity|].
    unfold uart_bind at 1.
    pose proof (read_int_from_uart_range MIN_PULSE_MS MAX_PULSE_MS rx1) as Hpd.
    destruct (read_int_from_uart MIN_PULSE_MS MAX_PULSE_MS rx1) as [pd rx2| |];
      [|reflexivity|contradiction].
    destruct (pd <? 0); [reflexivity|].
    unfold uart_bind at 1, select_mode, uart_bind at 1, uart_read_char.
    destruct rx2 as [|c2 rx3]; [reflexivity|]. unfold uart_ret at 1.
    unfold uart_bind at 1.
    assert (Hlim : defined (ask_pulse_limit rx3) = true).
    { unfold ask_pulse_limit, uart_bind, uart_read_char.
      destruct rx3 as [|c3 rx4]; [reflexivity|].
      destruct (char_eqb c3 "S" || char_eqb c3 "s"); [|reflexivity].
      pose proof (read_int_from_uart_range 1 1000000 rx4) as Hl.
      destruct (read_int_from_uart 1 1000000 rx4);
        [reflexivity|reflexivity|contradiction]. }
    destruct (ask_pulse_limit rx3) as [lim rx5| |];
      [|reflexivity|discriminate].
    unfold uart_bind, uart_eval, c_div.
    destruct (Z.eqb_spec iv 0) as [E|_]; [lia|reflexivity].
Qed.

(** The validator of the second firmware checks each entry against its own
    range and nothing else: every interval in range is accepted with every
    pulse duration in range, whichever is the larger. *)
Lemma configure_output_range_checks_only
      (ds_i ds_p : list ascii) (m : ascii) (rest : list ascii)
      (c0 : pulse_config_t) (others : list pulse_config_t) :
  well_formed_entry ds_i = true ->
  well_formed_entry ds_p = true ->
  1 <= decimal_value ds_i <= 3600000 ->
  1 <= decimal_value ds_p <= 10000 ->
  configure_output 1 GPIO_OUT_1 (c0 :: others)
    ("I"%char :: ds_i ++ CR :: ds_p ++ CR :: m :: "N"%char :: rest)
  = Ret (true,
         mk_config GPIO_OUT_1 (decimal_value ds_i) (decimal_value ds_p)
                   (if char_eqb m "D"%char || char_eqb m "d"%char
                    then MODE_DEFINED else MODE_RANDOM)
                   "OUT1" 0 (Z.quot 1000 (decimal_value ds_i)) STATE_STOPPED 0
         :: others) rest.
Proof.
  intros Hwi Hwp Hi Hp. unfold configure_output. unfold uart_bind at 1.
  rewrite (ask_pps_config_interval_entry ds_i _ Hwi).
  destruct (Z.leb_spec 1 (decimal_value ds_i)); [|lia].
  destruct (Z.leb_spec (decimal_value ds_i) 3600000); [|lia]. cbn [andb].
  destruct (Z.ltb_spec (decimal_value ds_i) 0); [lia|].
  unfold uart_bind at 1.
  rewrite (read_int_from_uart_entry MIN_PULSE_MS MAX_PULSE_MS ds_p _ Hwp) by reflexivity.
  unfold MIN_PULSE_MS, MAX_PULSE_MS.
  destruct (Z.leb_spec 1 (decimal_value ds_p)); [|lia].
  destruct (Z.leb_spec (decimal_value ds_p) 10000); [|lia]. cbn [andb].
  destruct (Z.ltb_spec (decimal_value ds_p) 0); [lia|].
  unfold uart_bind, select_mode, ask_pulse_limit, uart_bind, uart_read_char,
    uart_ret, uart_eval, c_div.
  change (char_eqb "N" "S" || char_eqb "N" "s") with false. cbv iota.
  destruct (Z.eqb_spec (decimal_value ds_i) 0); [lia|].
  reflexivity.
Qed.

(** C3 at the failing input: the entries interval 2 ms and pulse duration
    5 ms are accepted by [configure_output], which compares the two with
    nothing; the configuration is stored and the result is [true]. *)
Theorem configure_output_accepts_long_pulse :
  configure_output 1 GPIO_OUT_1 [blank; blank]
                   (chars "I2" ++ CR :: chars "5" ++ CR :: chars "DN")
  = Ret (true, [mk_config 4 2 5 MODE_DEFINED "OUT1" 0 500 STATE_STOPPED 0; blank]) [].
Proof. reflexivity. Qed.

End DialogueFacts.

(** * The pulse task of the second firmware *)

Module SchedulerFacts.
Import Session.

Lemma pdMS_TO_TICKS_ms ms : pdMS_TO_TICKS ms = ms.
Proof. unfold pdMS_TO_TICKS, configTICK_RATE_HZ. apply Z.quot_mul. lia. Qed.

Lemma current_time_eq w :
  to_uint32 (xTaskGetTickCount w * portTICK_PERIOD_MS) = to_uint32 (tick_count w).
Proof.
  change portTICK_PERIOD_MS with 1. rewrite Z.mul_1_r.
  unfold xTaskGetTickCount, to_uint32. apply Z.mod_mod. discriminate.
Qed.

Lemma elapsed_eq t last : to_uint32 (to_uint32 t - last) = to_uint32 (t - last).
Proof. unfold to_uint32. apply Zminus_mod_idemp_l. Qed.

Ltac world_ops :=
  unfold vTaskDelay, update_config, gpio_set_level, ESP_LOGI_pulse,
    set_active_configs, set_system_running, set_pause_requested,
    set_tick_count, set_gpio_trace, set_pulse_log in *;
  cbn [active_configs active_outputs system_running pause_requested
       tick_count gpio_trace pulse_log] in *.

Ltac same_events :=
  repeat (apply (f_equal2 cons); [first [reflexivity | f_equal; lia]|]);
  reflexivity.

Lemma iteration_paused w i last c :
  active_configs w !! i = Some c ->
  loop_condition w c = true ->
  state c = STATE_PAUSED ->
  pulse_task_iteration i last w = (vTaskDelay 100 w, Looping i last).
Proof.
  intros Hc Hl Hs. unfold pulse_task_iteration. rewrite Hc, Hl.
  rewrite bool_decide_eq_true_2 by exact Hs.
  rewrite pdMS_TO_TICKS_ms. reflexivity.
Qed.

Lemma iteration_wait w i last c :
  active_configs w !! i = Some c ->
  loop_condition w c = true ->
  state c <> STATE_PAUSED ->
  pulse_due (to_uint32 (tick_count w)) last c = false ->
  pulse_task_iteration i last w = (vTaskDelay 1 w, Looping i last).
Proof.
  intros Hc Hl Hs Hd. unfold pulse_task_iteration. rewrite Hc, Hl.
  rewrite bool_decide_eq_false_2 by exact Hs.
  rewrite current_time_eq, Hd, pdMS_TO_TICKS_ms. reflexivity.
Qed.

Lemma iteration_fire w i last c :
  active_configs w !! i = Some c ->
  loop_condition w c = true ->
  state c <> STATE_PAUSED ->
  pulse_due (to_uint32 (tick_count w)) last c = true ->
  pulse_task_iteration i last w = (fired i c w, Looping i (to_uint32 (tick_count w))).
Proof.
  intros Hc Hl Hs Hd. unfold pulse_task_iteration. rewrite Hc, Hl.
  rewrite bool_decide_eq_false_2 by exact Hs.
  rewrite current_time_eq, Hd, !pdMS_TO_TICKS_ms.
  f_equal. unfold fired, generate_pulse. rewrite pdMS_TO_TICKS_ms.
  world_ops. rewrite <- app_assoc. reflexivity.
Qed.

Lemma iteration_finish w i last c :
  active_configs w !! i = Some c ->
  loop_condition w c = false ->
  pulse_task_iteration i last w = (finished i c w, Deleted).
Proof.
  intros Hc Hl. unfold pulse_task_iteration. rewrite Hc, Hl.
  f_equal. unfold finished, end_signal, end_toggles. rewrite pdMS_TO_TICKS_ms.
  destruct w as [cfgs outs sr pr tick trace log].
  cbv [Nat.iter nat_rect vTaskDelay update_config gpio_set_level
       set_active_configs set_tick_count set_gpio_trace
       active_configs active_outputs system_running pause_requested
       tick_count gpio_trace pulse_log].
  rewrite <- !app_assoc. cbn [app].
  f_equal; [lia|]. f_equal. same_events.
Qed.

(** *** Runs of polls *)

Lemma run_app es1 es2 s : run (es1 ++ es2) s = run es2 (run es1 s).
Proof. unfold run. apply fold_left_app. Qed.

Lemma run_polls_add a b s :
  run (replicate (a + b) Poll) s = run (replicate b Poll) (run (replicate a Poll) s).
Proof. rewrite replicate_add. apply run_app. Qed.

Lemma run_polls_deleted n w : run (replicate n Poll) (w, Deleted) = (w, Deleted).
Proof. induction n as [|n IH]; [reflexivity|exact IH]. Qed.

(** While no pulse is due, a running task only lets the ticks pass. *)
Lemma run_polls_waiting d : forall w i last c,
  active_configs w !! i = Some c ->
  loop_condition w c = true ->
  state c <> STATE_PAUSED ->
  (forall j, 0 <= j < Z.of_nat d ->
             pulse_due (to_uint32 (tick_count w + j)) last c = false) ->
  run (replicate d Poll) (w, Looping i last)
  = (set_tick_count (tick_count w + Z.of_nat d) w, Looping i last).
Proof.
  induction d as [|d IH]; intros w i last c Hc Hl Hs Hnd.
  - cbn [replicate run fold_left]. f_equal.
    rewrite Z.add_0_r. destruct w; reflexivity.
  - cbn [replicate]. change (run (Poll :: replicate d Poll) (w, Looping i last))
      with (run (replicate d Poll) (pulse_task_iteration i last w)).
    rewrite (iteration_wait w i last c Hc Hl Hs).
    + rewrite (IH (vTaskDelay 1 w) i last c); [| exact Hc | exact Hl | exact Hs |].
      * f_equal. world_ops. f_equal. lia.
      * intros j Hj. world_ops. rewrite <- Z.add_assoc. apply Hnd. lia.
    + specialize (Hnd 0 ltac:(lia)). rewrite Z.add_0_r in Hnd. exact Hnd.
Qed.

(** A pulse falls due after finitely many polls. *)
Lemma due_after_finitely_many t last c :
  0 <= interval_ms c < UINT32_MODULUS ->
  exists d : nat,
    (forall j, 0 <= j < Z.of_nat d -> pulse_due (to_uint32 (t + j)) last c = false) /\
    pulse_due (to_uint32 (t + Z.of_nat d)) last c = true.
Proof.
  intros Hi. unfold pulse_due.
  rewrite (to_uint32_small (interval_ms c)) by exact Hi.
  set (e := to_uint32 (t - last)).
  pose proof (to_uint32_range (t - last)) as He. fold e in He.
  assert (Hshift : forall j, 0 <= j -> e + j < UINT32_MODULUS ->
                             to_uint32 (to_uint32 (t + j) - last) = e + j).
  { intros j Hj Hlt. rewrite elapsed_eq.
    replace (t + j - last) with (t - last + j) by lia.
    unfold to_uint32. rewrite <- Zplus_mod_idemp_l.
    fold (to_uint32 (t - last)). fold e. apply Z.mod_small. lia. }
  destruct (Z.le_gt_cases (interval_ms c) e) as [Hdue|Hnot].
  - exists O. split; [intros j Hj; lia|].
    change (Z.of_nat 0) with 0. rewrite Hshift by lia.
    apply Z.leb_le. lia.
  - exists (Z.to_nat (interval_ms c - e)). rewrite Z2Nat.id by lia. split.
    + intros j Hj. rewrite Hshift by lia. apply Z.leb_gt. lia.
    + rewrite Hshift by lia. apply Z.leb_le. lia.
Qed.

(** From the head of the loop, a running task with pulses left fires its next
    pulse after finitely many polls. *)
Lemma next_pulse w i last c :
  active_configs w !! i = Some c ->
  loop_condition w c = true ->
  state c <> STATE_PAUSED ->
  0 <= interval_ms c < UINT32_MODULUS ->
  exists d : nat,
    run (replicate (d + 1) Poll) (w, Looping i last)
    = (fired i c (set_tick_count (tick_count w + Z.of_nat d) w),
       Looping i (to_uint32 (tick_count w + Z.of_nat d))).
Proof.
  intros Hc Hl Hs Hi.
  destruct (due_after_finitely_many (tick_count w) last c Hi) as (d & Hnot & Hdue).
  exists d. rewrite run_polls_add.
  rewrite (run_polls_waiting d w i last c Hc Hl Hs Hnot).
  cbn [replicate run fold_left step].
  apply iteration_fire; [exact Hc|exact Hl|exact Hs|exact Hdue].
Qed.

(** *** Runs up to the pulse limit *)

Lemma alter_as_insert {A} (f : A -> A) (l : list A) (i : nat) (x : A) :
  l !! i = Some x -> alter f i l = <[i := f x]> l.
Proof.
  revert i. induction l as [|a l IH]; intros [|i] H; simpl in *; try discriminate.
  - injection H as ->. reflexivity.
  - f_equal. apply IH, H.
Qed.

Lemma insert_after_alter {A} (f : A -> A) (l : list A) (i : nat) (x : A) :
  <[i := x]> (alter f i l) = <[i := x]> l.
Proof.
  revert i. induction l as [|a l IH]; intros [|i]; simpl; try reflexivity.
  f_equal. apply IH.
Qed.

Lemma pulse_records_cons lbl first t ts :
  pulse_records lbl first (t :: ts)
  = mk_pulse_record t lbl first :: pulse_records lbl (first + 1) ts.
Proof.
  unfold pulse_records. rewrite imap_cons. f_equal.
  - f_equal. change (Z.of_nat 0) with 0. lia.
  - apply imap_ext. intros k x _. cbn. f_equal. lia.
Qed.

Lemma run_limited m : forall w i lp c,
  active_configs w !! i = Some c ->
  system_running w = true ->
  state c <> STATE_PAUSED ->
  1 <= max_pulses c <= INT_MAX ->
  0 <= pulse_count c ->
  max_pulses c = pulse_count c + Z.of_nat m ->
  0 <= interval_ms c < UINT32_MODULUS ->
  exists (k : nat) (ts : list Z) (t_end : Z),
    length ts = m /\
    t_end = from_option (fun t => t + pulse_duration_ms c + 1) (tick_count w) (last ts) /\
    forall n, (k <= n)%nat ->
      run (replicate n Poll) (w, Looping i lp) = (completed i c ts t_end w, Deleted).
Proof.
  induction m as [|m IH]; intros w i lp c Hc Hsr Hs Hmax Hpc Hm Hi.
  - exists 1%nat, [], (tick_count w). split; [reflexivity|]. split; [reflexivity|].
    intros n Hn. replace n with (1 + (n - 1))%nat by lia.
    rewrite run_polls_add. cbn [replicate run fold_left step].
    rewrite (iteration_finish w i lp c Hc).
    + change (fold_left step (replicate (n - 1) Poll) (finished i c w, Deleted))
        with (run (replicate (n - 1) Poll) (finished i c w, Deleted)).
      rewrite run_polls_deleted. f_equal.
      unfold finished, completed. cbn [length map concat app pulse_records imap].
      rewrite (alter_as_insert _ _ _ _ Hc), app_nil_r.
      replace (set_pulse_count (pulse_count c + Z.of_nat 0) c) with c
        by (destruct c; unfold set_pulse_count; cbn; f_equal; lia).
      reflexivity.
    + unfold loop_condition. rewrite Hsr.
      destruct (Z.eqb_spec (max_pulses c) 0); [lia|].
      destruct (Z.ltb_spec (pulse_count c) (max_pulses c)); [lia|reflexivity].
  - assert (Hl : loop_condition w c = true).
    { unfold loop_condition. rewrite Hsr.
      destruct (Z.ltb_spec (pulse_count c) (max_pulses c)); [|lia].
      apply orb_true_r. }
    destruct (next_pulse w i lp c Hc Hl Hs Hi) as [d Hd].
    set (t := tick_count w + Z.of_nat d) in *.
    set (w1 := fired i c (set_tick_count t w)) in *.
    set (c1 := set_pulse_count (pulse_count c + 1) c).
    assert (Hc1 : active_configs w1 !! i = Some c1).
    { unfold w1, fired. world_ops. rewrite list_lookup_alter_eq, Hc. cbn.
      rewrite to_int32_small by lia. reflexivity. }
    destruct (IH w1 i (to_uint32 t) c1 Hc1) as (k & ts & t_end & Hlen & Hend & Hrun).
    + exact Hsr.
    + exact Hs.
    + exact Hmax.
    + cbn. lia.
    + cbn. lia.
    + exact Hi.
    + exists (d + 1 + k)%nat, (t :: ts), t_end. split; [cbn; lia|]. split.
      { rewrite Hend. rewrite last_cons.
        destruct (last ts); [reflexivity|]. unfold w1, fired. world_ops. reflexivity. }
      intros n Hn. replace n with ((d + 1) + (n - (d + 1)))%nat by lia.
      rewrite run_polls_add, Hd, Hrun by lia. f_equal.
      unfold completed, w1, fired. world_ops.
      rewrite insert_after_alter, pulse_records_cons.
      cbn [length map concat gpio pulse_duration_ms label pulse_count c1 set_pulse_count].
      rewrite <- !app_assoc. cbn [app].
      f_equal.
      f_equal. unfold set_state, set_pulse_count. cbn. f_equal. lia.
Qed.

(** *** The claim on the pulse limit *)

(** C4: a channel with the pulse limit N, started in a session that stays
    running and is not paused, runs to its end: it logs and emits exactly N
    pulses, numbered from 1, each low for the pulse duration; one tick after
    the last of them it is [STATE_STOPPED] with [pulse_count = N] and gives the
    end-of-run signal, low and high three times with 100 ms between the
    transitions, which leaves the count and the log as they are. *)
Theorem limited_channel_emits_exactly_N (w : world) (i : nat) (c : pulse_config_t)
        (N : Z) :
  active_configs w !! i = Some c ->
  system_running w = true ->
  max_pulses c = N ->
  1 <= N <= 1000000 ->
  1 <= interval_ms c <= MAX_INTERVAL_MS ->
  exists (k : nat) (ts : list Z) (t_end : Z),
    length ts = Z.to_nat N /\
    t_end = from_option (fun t => t + pulse_duration_ms c + 1) (tick_count w) (last ts) /\
    forall n, (k <= n)%nat ->
      run (replicate n Poll) (pulse_task (Some i) w)
      = (mk_world
           (<[i := set_state STATE_STOPPED (set_pulse_count N c)]> (active_configs w))
           (active_outputs w) true (pause_requested w)
           (t_end + 600)
           (gpio_trace w
            ++ mk_gpio_event (tick_count w) (gpio c) 1
            :: concat (map (fun t => pulse_events (gpio c) t (pulse_duration_ms c)) ts)
            ++ end_toggles (gpio c) t_end)
           (pulse_log w ++ pulse_records (label c) 1 ts),
         Deleted).
Proof.
  intros Hc Hsr HN Hrange Hi.
  unfold pulse_task. rewrite Hc.
  set (c0 := set_pulse_count 0 (set_state STATE_RUNNING c)).
  set (w0 := update_config i (set_pulse_count 0)
               (update_config i (set_state STATE_RUNNING)
                  (gpio_set_level (gpio c) 1 w))).
  assert (Hc0 : active_configs w0 !! i = Some c0).
  { unfold w0. world_ops. rewrite !list_lookup_alter_eq, Hc. reflexivity. }
  destruct (run_limited (Z.to_nat N) w0 i 0 c0 Hc0) as (k & ts & t_end & Hlen & Hend & Hrun).
  - unfold w0. world_ops. exact Hsr.
  - cbn. discriminate.
  - cbn. unfold INT_MAX. lia.
  - cbn. lia.
  - cbn. lia.
  - cbn. unfold MAX_INTERVAL_MS, UINT32_MODULUS in *. lia.
  - exists k, ts, t_end. split; [exact Hlen|]. split; [exact Hend|].
    intros n Hn. rewrite (Hrun n Hn). f_equal.
    unfold completed, w0. world_ops.
    rewrite !insert_after_alter, Hsr, <- app_assoc.
    cbn [c0 gpio pulse_duration_ms label pulse_count set_pulse_count set_state app].
    f_equal. f_equal. unfold set_state, set_pulse_count. cbn. f_equal. lia.
Qed.

(** The sample channel with the limit 3. *)
Lemma limited_channel_emits_exactly_N_witness :
  exists (k : nat) (ts : list Z) (t_end : Z),
    length ts = 3%nat /\
    t_end = from_option (fun t => t + 100 + 1) 5000 (last ts) /\
    forall n, (k <= n)%nat ->
      run (replicate n Poll) (pulse_task (Some 0%nat) (sample_session 3 5000))
      = (mk_world
           [mk_config GPIO_OUT_1 1000 100 MODE_DEFINED "OUT1" 3 1 STATE_STOPPED 3; blank]
           1 true false (t_end + 600)
           (mk_gpio_event 5000 GPIO_OUT_1 1
            :: concat (map (fun t => pulse_events GPIO_OUT_1 t 100) ts)
            ++ end_toggles GPIO_OUT_1 t_end)
           (pulse_records "OUT1" 1 ts),
         Deleted).
Proof.
  exact (limited_channel_emits_exactly_N (sample_session 3 5000) 0 (sample_config 3) 3
           eq_refl eq_refl eq_refl ltac:(lia) ltac:(vm_compute; intuition discriminate)).
Defined.

End SchedulerFacts.

(** * Activation, pause and the end of a channel *)

Module LifecycleFacts.
Import Session SchedulerFacts.

(** *** The broadcast of [handle_pause_system] *)

Lemma fold_update_frame (f : pulse_config_t -> pulse_config_t) (l : list nat) :
  forall w,
    let w' := fold_left (fun w i => update_config i f w) l w in
    w' = set_active_configs (active_configs w') w.
Proof.
  induction l as [|i l IH]; intros w; cbn [fold_left].
  - destruct w; reflexivity.
  - cbv zeta in IH. rewrite (IH (update_config i f w)) at 1.
    unfold update_config, set_active_configs. reflexivity.
Qed.

Lemma fold_update_lookup (f : pulse_config_t -> pulse_config_t) (n : nat) :
  forall w j,
    active_configs (fold_left (fun w i => update_config i f w) (seq 0 n) w) !! j
    = if decide (j < n)%nat then f <$> active_configs w !! j
      else active_configs w !! j.
Proof.
  induction n as [|n IH]; intros w j.
  - cbn [seq fold_left]. destruct (decide (j < 0)%nat); [lia|reflexivity].
  - rewrite seq_S, fold_left_app. cbn [fold_left Nat.add].
    unfold update_config at 1. unfold set_active_configs. cbn [active_configs].
    destruct (decide (n = j)) as [->|Hne].
    + rewrite list_lookup_alter_eq, IH.
      destruct (decide (j < j)%nat); [lia|].
      destruct (decide (j < S j)%nat); [reflexivity|lia].
    + rewrite list_lookup_alter_ne by exact Hne. rewrite IH.
      destruct (decide (j < n)%nat), (decide (j < S n)%nat); try reflexivity; lia.
Qed.

(** A resume request, seen from an active channel [i]. *)
Lemma resume_seen_by_channel w i c :
  active_configs w !! i = Some c ->
  pause_requested w = true ->
  (i < Z.to_nat (active_outputs w))%nat ->
  let w' := handle_pause_system w in
  active_configs w' !! i = Some (set_state STATE_RUNNING c) /\
  system_running w' = system_running w /\
  tick_count w' = tick_count w /\
  gpio_trace w' = gpio_trace w /\
  pulse_log w' = pulse_log w.
Proof.
  intros Hc Hp Hi. unfold handle_pause_system.
  cbn [pause_requested set_pause_requested]. rewrite Hp. cbn [negb].
  unfold broadcast_state. cbn [active_outputs set_pause_requested].
  set (w0 := set_pause_requested false w).
  cbv zeta. split.
  - rewrite fold_update_lookup.
    destruct (decide (i < Z.to_nat (active_outputs w))%nat); [|lia].
    unfold w0. cbn [active_configs set_pause_requested]. rewrite Hc. reflexivity.
  - rewrite (fold_update_frame (set_state STATE_RUNNING) _ w0).
    unfold w0, set_active_configs, set_pause_requested. cbn.
    repeat split; reflexivity.
Qed.

(** *** A paused channel *)

Lemma set_tick_count_same w : set_tick_count (tick_count w + 0) w = w.
Proof. rewrite Z.add_0_r. destruct w; reflexivity. Qed.

(** While it is paused, polls and the passing of time change nothing but the
    tick counter. *)
Lemma run_waiting_paused es : forall w i lp c,
  active_configs w !! i = Some c ->
  state c = STATE_PAUSED ->
  loop_condition w c = true ->
  forallb is_waiting es = true ->
  run es (w, Looping i lp)
  = (set_tick_count (tick_count w + waited es) w, Looping i lp).
Proof.
  induction es as [|e es IH]; intros w i lp c Hc Hs Hl Hw.
  - cbn [run fold_left waited fold_right]. rewrite set_tick_count_same. reflexivity.
  - cbn [forallb] in Hw. apply andb_true_iff in Hw as [He Hes].
    change (run (e :: es) (w, Looping i lp)) with (run es (step (w, Looping i lp) e)).
    destruct e as [| |d|]; cbn [is_waiting] in He; try discriminate; cbn [step].
    + rewrite (iteration_paused w i lp c Hc Hl Hs).
      rewrite (IH (vTaskDelay 100 w) i lp c Hc Hs Hl Hes).
      f_equal. cbn [waited fold_right]. fold (waited es).
      world_ops. f_equal. lia.
    + rewrite (IH (vTaskDelay d w) i lp c Hc Hs Hl Hes).
      f_equal. cbn [waited fold_right]. fold (waited es).
      world_ops. f_equal. lia.
Qed.

(** C1, refuted as stated: the sample channel fires at tick 1000 and is paused
    at tick 1101, when its next pulse is pending for tick 2000.  It stays
    paused for 10000 ticks, during which nothing is logged, and is resumed at
    tick 11101: the first poll after that fires at once, at tick 11101, and
    not at the pending due time shifted by the pause, 2000 + 10000. *)
Lemma resumed_pulse_ignores_the_pause :
  let s_paused := run [Poll; Space] (pulse_task (Some 0%nat) (sample_session 0 1000)) in
  let s_resumed := run [Poll; Elapse 9900; Space] s_paused in
  let s_polled := run [Poll] s_resumed in
  s_paused.2 = Looping 0 1000 /\
  tick_count s_paused.1 = 1101 /\
  (state <$> active_configs s_paused.1 !! 0%nat) = Some STATE_PAUSED /\
  tick_count s_resumed.1 = 1101 + 10000 /\
  pulse_ticks s_resumed.1 = [1000] /\
  pulse_ticks s_polled.1 = [1000; 11101] /\
  11101 <> (1000 + 1000) + 10000.
Proof. vm_compute. repeat split; discriminate. Qed.

(** C1, amended: while a channel is paused, polls and elapsed time emit no
    pulse and change neither its counter nor its timing reference; only the
    tick counter advances.  That time does count: at the first poll after the
    resume request the pulse fires if and only if the ticks elapsed since the
    last pulse, pause included, have reached the interval. *)
Theorem paused_channel_is_silent_and_time_goes_on
        (w : world) (i : nat) (c : pulse_config_t) (lp : Z) (es : list event) :
  active_configs w !! i = Some c ->
  state c = STATE_PAUSED ->
  loop_condition w c = true ->
  pause_requested w = true ->
  (i < Z.to_nat (active_outputs w))%nat ->
  forallb is_waiting es = true ->
  let t := tick_count w + waited es in
  let paused := run es (w, Looping i lp) in
  let resumed := run [Space; Poll] paused in
  paused = (set_tick_count t w, Looping i lp) /\
  pulse_ticks resumed.1
  = pulse_ticks w ++ (if pulse_due (to_uint32 t) lp c then [t] else []) /\
  resumed.2 = Looping i (if pulse_due (to_uint32 t) lp c then to_uint32 t else lp).
Proof.
  intros Hc Hs Hl Hp Hi Hw t paused resumed.
  assert (Hpaused : paused = (set_tick_count t w, Looping i lp))
    by (apply (run_waiting_paused es w i lp c Hc Hs Hl Hw)).
  split; [exact Hpaused|].
  subst resumed. rewrite Hpaused. cbn [run fold_left step].
  set (w1 := set_tick_count t w).
  destruct (resume_seen_by_channel w1 i c Hc Hp Hi) as (Hc2 & Hsr & Htick & _ & Hlog).
  set (w2 := handle_pause_system w1) in *.
  set (c2 := set_state STATE_RUNNING c) in *.
  assert (Hl2 : loop_condition w2 c2 = true) by (unfold loop_condition; rewrite Hsr; exact Hl).
  assert (Hs2 : state c2 <> STATE_PAUSED) by (cbn; discriminate).
  change (tick_count w1) with t in Htick.
  change (pulse_log w1) with (pulse_log w) in Hlog.
  change (pulse_due (to_uint32 t) lp c) with (pulse_due (to_uint32 t) lp c2).
  destruct (pulse_due (to_uint32 t) lp c2) eqn:Hdue.
  - rewrite (iteration_fire w2 i lp c2 Hc2 Hl2 Hs2) by (rewrite Htick; exact Hdue).
    cbn [fst snd]. rewrite Htick. split; [|reflexivity].
    unfold pulse_ticks, fired. cbn [pulse_log]. rewrite map_app, Hlog, Htick. reflexivity.
  - rewrite (iteration_wait w2 i lp c2 Hc2 Hl2 Hs2) by (rewrite Htick; exact Hdue).
    cbn [fst snd]. split; [|reflexivity].
    unfold pulse_ticks. world_ops. rewrite Hlog, app_nil_r. reflexivity.
Qed.

(** The sample channel, paused at tick 1101 with its last pulse at tick 1000,
    polled once, left for 9900 ticks and resumed. *)
Lemma paused_channel_is_silent_and_time_goes_on_witness :
  let w := (run [Poll; Space] (pulse_task (Some 0%nat) (sample_session 0 1000))).1 in
  let paused := run [Poll; Elapse 9900] (w, Looping 0 1000) in
  let resumed := run [Space; Poll] paused in
  paused = (set_tick_count 11101 w, Looping 0 1000) /\
  pulse_ticks resumed.1 = [1000; 11101] /\
  resumed.2 = Looping 0 11101.
Proof.
  exact (paused_channel_is_silent_and_time_goes_on
           (run [Poll; Space] (pulse_task (Some 0%nat) (sample_session 0 1000))).1
           0 (set_state STATE_PAUSED (set_pulse_count 1 (sample_config 0))) 1000
           [Poll; Elapse 9900]
           eq_refl eq_refl eq_refl eq_refl ltac:(vm_compute; lia) eq_refl).
Defined.

(** *** Activation *)

Lemma to_uint32_idem z : to_uint32 (to_uint32 z) = to_uint32 z.
Proof. unfold to_uint32. apply Z.mod_mod. discriminate. Qed.

(** C8, refuted as stated: the sample channel is activated when the tick
    counter reads 5000.  The timing reference of its task is 0, not 5000, and
    the first poll fires at tick 5000, a whole interval (1000 ticks) before
    the claim has the first pulse due. *)
Lemma first_pulse_fires_at_activation :
  let s := pulse_task (Some 0%nat) (sample_session 0 5000) in
  tick_count s.1 = 5000 /\
  s.2 = Looping 0 0 /\
  s.2 <> Looping 0 5000 /\
  pulse_ticks (run [Poll] s).1 = [5000] /\
  ~ (5000 + 1000 <= 5000).
Proof. vm_compute. repeat split; try discriminate. intros H; apply H; reflexivity. Qed.

(** C8, amended: at activation the task drives the line high, sets the state
    to [STATE_RUNNING] and the pulse counter to 0; its timing reference is 0,
    the origin of the tick counter, and not the time of activation, so the
    first poll of a running session fires if and only if the tick counter
    (as a 32-bit number) has reached the interval. *)
Theorem activation_resets_count_and_idles_line
        (w : world) (i : nat) (c : pulse_config_t) :
  active_configs w !! i = Some c ->
  let s := pulse_task (Some i) w in
  s = (mk_world (<[i := set_pulse_count 0 (set_state STATE_RUNNING c)]> (active_configs w))
                (active_outputs w) (system_running w) (pause_requested w)
                (tick_count w)
                (gpio_trace w ++ [mk_gpio_event (tick_count w) (gpio c) 1])
                (pulse_log w),
       Looping i 0) /\
  (system_running w = true ->
   max_pulses c = 0 \/ 0 < max_pulses c ->
   pulse_ticks (run [Poll] s).1
   = pulse_ticks w ++ (if to_uint32 (interval_ms c) <=? to_uint32 (tick_count w)
                       then [tick_count w] else [])).
Proof.
  intros Hc s.
  set (c0 := set_pulse_count 0 (set_state STATE_RUNNING c)).
  assert (Hs : s = (mk_world (<[i := c0]> (active_configs w))
                             (active_outputs w) (system_running w) (pause_requested w)
                             (tick_count w)
                             (gpio_trace w ++ [mk_gpio_event (tick_count w) (gpio c) 1])
                             (pulse_log w),
                    Looping i 0)).
  { subst s. unfold pulse_task. rewrite Hc. f_equal. world_ops.
    rewrite (alter_as_insert _ _ _ _ Hc).
    rewrite (alter_as_insert _ _ i (set_state STATE_RUNNING c)).
    - rewrite list_insert_insert_eq. reflexivity.
    - apply list_lookup_insert_eq. apply lookup_lt_Some in Hc. exact Hc. }
  split; [exact Hs|].
  intros Hsr Hmax. rewrite Hs. cbn [run fold_left step].
  set (w0 := mk_world _ _ _ _ _ _ _).
  assert (Hc0 : active_configs w0 !! i = Some c0).
  { unfold w0. cbn [active_configs]. apply list_lookup_insert_eq.
    apply lookup_lt_Some in Hc. exact Hc. }
  assert (Hl : loop_condition w0 c0 = true).
  { unfold loop_condition, w0. cbn. rewrite Hsr.
    destruct Hmax as [->|Hpos]; [reflexivity|].
    destruct (Z.ltb_spec 0 (max_pulses c)); [apply orb_true_r|lia]. }
  assert (Hs0 : state c0 <> STATE_PAUSED) by (cbn; discriminate).
  assert (Hdue : pulse_due (to_uint32 (tick_count w0)) 0 c0
                 = (to_uint32 (interval_ms c) <=? to_uint32 (tick_count w))).
  { unfold pulse_due, w0. cbn [tick_count c0 interval_ms set_pulse_count set_state].
    rewrite Z.sub_0_r, to_uint32_idem. reflexivity. }
  destruct (to_uint32 (interval_ms c) <=? to_uint32 (tick_count w)).
  - rewrite (iteration_fire w0 i 0 c0 Hc0 Hl Hs0 Hdue). cbn [fst].
    unfold pulse_ticks, fired, w0. cbn [pulse_log tick_count]. apply map_app.
  - rewrite (iteration_wait w0 i 0 c0 Hc0 Hl Hs0 Hdue). cbn [fst].
    unfold pulse_ticks, w0. world_ops. rewrite app_nil_r. reflexivity.
Qed.

(** The sample channel, activated at tick 5000. *)
Lemma activation_resets_count_and_idles_line_witness :
  let s := pulse_task (Some 0%nat) (sample_session 3 5000) in
  s = (mk_world [mk_config GPIO_OUT_1 1000 100 MODE_DEFINED "OUT1" 3 1 STATE_RUNNING 0; blank]
                1 true false 5000 [mk_gpio_event 5000 GPIO_OUT_1 1] [],
       Looping 0 0) /\
  pulse_ticks (run [Poll] s).1 = [5000].
Proof.
  destruct (activation_resets_count_and_idles_line (sample_session 3 5000) 0
              (sample_config 3) eq_refl) as [Hstart Hfirst].
  split; [exact Hstart|].
  exact (Hfirst eq_refl (or_intror eq_refl)).
Defined.

(** *** The end of a channel *)

(** C5 at the failing input: channel 1 of the sample pair reaches its limit of
    one pulse, sets its state to [STATE_STOPPED] and deletes its task.  The
    space bar then makes [handle_pause_system] write [STATE_PAUSED] over it,
    and a second one [STATE_RUNNING]: the state of a channel whose task is
    gone leaves [STATE_STOPPED], and the check of the monitoring loop stays
    true even after channel 2 stops as well. *)
Theorem pause_broadcast_revives_stopped_channel :
  let s_done := run [Poll; Poll] (pulse_task (Some 0%nat) (sample_pair 5000)) in
  let s_pause := run [Space] s_done in
  let s_resume := run [Space] s_pause in
  s_done.2 = Deleted /\
  (state <$> active_configs s_done.1 !! 0%nat) = Some STATE_STOPPED /\
  (state <$> active_configs s_pause.1 !! 0%nat) = Some STATE_PAUSED /\
  (state <$> active_configs s_resume.1 !! 0%nat) = Some STATE_RUNNING /\
  s_resume.2 = Deleted /\
  tasks_running (update_config 1 (set_state STATE_STOPPED) s_resume.1) = true.
Proof. vm_compute. repeat split. Qed.

(** C9: a task handed the null pointer is deleted at once and leaves the
    world as it found it: no level is written, no pulse logged, no counter
    or state changed, and later polls of it change nothing.  A sibling task
    and the monitoring loop therefore run on exactly as without it.  (The
    first firmware behaves alike.) *)
Theorem null_config_task_is_inert
        (w : world) (n : nat) (t : task) (es : list event) (cmd : option ascii)
        (rnds : list Z) :
  pulse_task None w = (w, Deleted) /\
  run (replicate n Poll) (pulse_task None w) = (w, Deleted) /\
  run es ((pulse_task None w).1, t) = run es (w, t) /\
  monitor_iteration cmd (pulse_task None w).1 = monitor_iteration cmd w /\
  Basic.pulse_task None rnds = Some (0, Basic.mk_bench 0 [] []).
Proof.
  split; [reflexivity|].
  split; [apply run_polls_deleted|].
  repeat split.
Qed.


End LifecycleFacts.

(** * The first firmware: validation and intervals *)

Module BasicFacts.
Import Basic.



Lemma basic_select_mode_defined rx : defined (select_mode rx) = true.
Proof.
  induction rx as [|c rx IH]; cbn [select_mode]; [reflexivity|].
  destruct (char_eqb c "D" || char_eqb c "d"); [reflexivity|].
  destruct (char_eqb c "R" || char_eqb c "r"); [reflexivity|exact IH].
Qed.



(** The first firmware at the entries that the second accepts in C3: an
    interval of 300 ms with a pulse of 300 ms is refused, with a pulse of
    299 ms it is accepted, and an interval out of range ends the dialogue
    before the pulse duration is read. *)
Lemma basic_validator_examples :
  configure_single_output true 1 GPIO_OUT_1
    (chars "300" ++ CR :: chars "300" ++ CR :: chars "D") = Ret None (chars "D") /\
  configure_single_output true 1 GPIO_OUT_1
    (chars "300" ++ CR :: chars "299" ++ CR :: chars "D")
  = Ret (Some (mk_config GPIO_OUT_1 300 299 MODE_DEFINED "Saída 1")) [] /\
  configure_single_output true 1 GPIO_OUT_1
    (chars "2" ++ CR :: chars "5" ++ CR :: chars "D")
  = Ret None (chars "5" ++ CR :: chars "D").
Proof. repeat split. Qed.



End BasicFacts.

(** * More on the configuration dialogue of the second firmware *)

Module DialogueExtras.
Import Session DialogueFacts SchedulerFacts.

(** *** The reading loop on arbitrary input *)

Lemma insert_in_the_middle (pre : list ascii) (a c : ascii) (tl : list ascii) :
  <[length pre := c]> (pre ++ a :: tl) = (pre ++ [c]) ++ tl.
Proof.
  induction pre as [|b pre IH]; simpl.
  - reflexivity.
  - f_equal. exact IH.
Qed.

(** Digits are stored from the write position on, over whatever the buffer
    holds there. *)
Lemma read_int_loop_digits ds : forall pre tail rx,
  forallb is_digit ds = true ->
  (length pre + length ds <= 11)%nat ->
  (length ds <= length tail)%nat ->
  read_int_loop (pre ++ tail) (length pre) (ds ++ rx)
  = read_int_loop ((pre ++ ds) ++ drop (length ds) tail) (length (pre ++ ds)) rx.
Proof.
  induction ds as [|c ds IH]; intros pre tail rx Hd Hlen Htail.
  - cbn [app length drop]. rewrite app_nil_r. reflexivity.
  - cbn [forallb] in Hd. apply andb_true_iff in Hd as [Hc Hds].
    destruct (digit_not_control c Hc) as [Hn He].
    destruct tail as [|a tail]; [cbn in Htail; lia|].
    cbn [length] in Hlen, Htail.
    cbn [app]. rewrite read_int_loop_cons by lia.
    rewrite Hn, He, Hc, insert_in_the_middle.
    replace (S (length pre)) with (length (pre ++ [c]))
      by (rewrite length_app; cbn; lia).
    rewrite (IH (pre ++ [c]) tail rx Hds)
      by (try rewrite length_app; cbn [length]; lia).
    cbn [length drop].
    replace ((pre ++ [c]) ++ ds) with (pre ++ c :: ds)
      by (rewrite <- app_assoc; reflexivity).
    reflexivity.
Qed.

Lemma read_int_loop_suffix rx : forall input index r rest,
  read_int_loop input index rx = Ret r rest -> exists used, rx = used ++ rest.
Proof.
  induction rx as [|c rx IH]; intros input index r rest; cbn [read_int_loop].
  - destruct (11 <=? index)%nat; [|discriminate].
    intros H. injection H as _ <-. exists []. reflexivity.
  - destruct (11 <=? index)%nat.
    { intros H. injection H as _ <-. exists []. reflexivity. }
    assert (Hrec : forall input' index',
               read_int_loop input' index' rx = Ret r rest ->
               exists used, c :: rx = used ++ rest).
    { intros input' index' H. destruct (IH _ _ _ _ H) as [used ->].
      exists (c :: used). reflexivity. }
    destruct (is_newline c).
    + destruct (0 <? index)%nat; [|apply Hrec].
      intros H. injection H as _ <-. exists [c]. reflexivity.
    + destruct (is_erase c); [apply Hrec|].
      destruct (is_digit c); apply Hrec.
Qed.

(** The loop never ends on an empty entry: the write position it returns is
    at least 1 and at most 11. *)
Lemma read_int_loop_index rx : forall input index r rest,
  (index <= 11)%nat ->
  read_int_loop input index rx = Ret r rest -> (1 <= r.2 <= 11)%nat.
Proof.
  induction rx as [|c rx IH]; intros input index r rest Hi; cbn [read_int_loop].
  - destruct (Nat.leb_spec 11 index) as [Hge|Hlt]; [|discriminate].
    intros Heq. injection Heq as <- _. cbn. lia.
  - destruct (Nat.leb_spec 11 index) as [Hge|Hlt].
    { intros Heq. injection Heq as <- _. cbn. lia. }
    destruct (is_newline c).
    + destruct (Nat.ltb_spec 0 index) as [Hpos|Hzero]; [|apply IH; lia].
      intros Heq. injection Heq as <- _. cbn. lia.
    + destruct (is_erase c).
      { apply IH. destruct (0 <? index)%nat; lia. }
      destruct (is_digit c); apply IH; lia.
Qed.

(** X1.  Whatever bytes arrive, [read_int_from_uart] consumes a prefix of
    them and answers -1 or a value within its bounds; its test for an empty
    entry never applies, since the loop only ends once a digit is stored. *)
Theorem read_int_from_uart_answer (min_val max_val : Z) (rx : list ascii) :
  match read_int_from_uart min_val max_val rx with
  | Ret v rest =>
      (v = -1 \/ min_val <= v <= max_val) /\
      v <= INT_MAX /\
      (exists used, rx = used ++ rest) /\
      (exists input index, read_int_loop (zeroed 12) 0 rx = Ret (input, index) rest /\
                           (1 <= index <= 11)%nat)
  | Starved => True
  | Undefined => False
  end.
Proof.
  pose proof (read_int_from_uart_range min_val max_val rx) as Hrange.
  unfold read_int_from_uart, uart_bind in *.
  destruct (read_int_loop (zeroed 12) 0 rx) as [[input index] rest| |] eqn:Hloop;
    [|exact I|exact Hrange].
  pose proof (read_int_loop_index rx (zeroed 12) 0%nat _ _ (Nat.le_0_l 11) Hloop) as Hidx.
  pose proof (read_int_loop_suffix _ _ _ _ _ Hloop) as Hsuf.
  cbn [fst snd] in *.
  destruct (Nat.eqb_spec index 0) as [E|_]; [lia|].
  assert (Hatoi : atoi input <= INT_MAX) by (unfold atoi; lia).
  destruct ((atoi input <? min_val) || (max_val <? atoi input)); unfold uart_ret in *.
  - repeat split; [exact Hrange|unfold INT_MAX; lia|exact Hsuf|].
    exists input, index. split; [reflexivity|exact Hidx].
  - repeat split; [exact Hrange|exact Hatoi|exact Hsuf|].
    exists input, index. split; [reflexivity|exact Hidx].
Qed.

(** X2.  Before the first digit every other byte is ignored: return keys
    (an empty entry does not end the prompt), erase characters and anything
    that is not a digit. *)
Theorem leading_non_digits_are_ignored
        (min_val max_val : Z) (junk rx : list ascii) :
  forallb (fun c => negb (is_digit c)) junk = true ->
  read_int_from_uart min_val max_val (junk ++ rx)
  = read_int_from_uart min_val max_val rx.
Proof.
  intros Hj. unfold read_int_from_uart, uart_bind.
  assert (Hloop : forall input,
             read_int_loop input 0 (junk ++ rx) = read_int_loop input 0 rx).
  { induction junk as [|c junk IH]; intros input; [reflexivity|].
    cbn [forallb] in Hj. apply andb_true_iff in Hj as [Hc Hjunk].
    apply negb_true_iff in Hc.
    cbn [app]. rewrite read_int_loop_cons by lia. rewrite Hc.
    change (0 <? 0)%nat with false. cbv iota.
    destruct (is_newline c); [apply IH, Hjunk|].
    destruct (is_erase c); apply IH, Hjunk. }
  rewrite Hloop. reflexivity.
Qed.

(** The keys return, x and erase before the entry 42. *)
Lemma leading_non_digits_are_ignored_witness :
  read_int_from_uart 1 1000 ([CR; "x"%char; DEL] ++ chars "42" ++ [CR])
  = read_int_from_uart 1 1000 (chars "42" ++ [CR]).
Proof.
  exact (leading_non_digits_are_ignored 1 1000 [CR; "x"%char; DEL]
           (chars "42" ++ [CR]) eq_refl).
Defined.

(** *** The erase key *)

Lemma read_int_loop_erase input index e rx :
  is_erase e = true ->
  is_newline e = false ->
  (index < 11)%nat ->
  read_int_loop input (S index) (e :: rx)
  = if (S index <? 11)%nat then read_int_loop input index rx
    else Ret (input, S index) (e :: rx).
Proof.
  intros He Hn Hi. cbn [read_int_loop].
  destruct (Nat.leb_spec 11 (S index)), (Nat.ltb_spec (S index) 11); try lia;
    [reflexivity|].
  rewrite Hn, He. reflexivity.
Qed.

Lemma erase_is_no_newline e : is_erase e = true -> is_newline e = false.
Proof.
  unfold is_erase, is_newline, char_eqb.
  change (code CR) with 13. change (code LF) with 10.
  intros H. apply orb_true_iff in H as [H|H]; apply Z.eqb_eq in H; rewrite H; reflexivity.
Qed.

(** The buffer and the write position after the digits [ds] were typed at
    the prompt. *)
Lemma read_int_loop_typed ds rx :
  forallb is_digit ds = true ->
  (length ds <= 11)%nat ->
  read_int_loop (zeroed 12) 0 (ds ++ rx)
  = read_int_loop (ds ++ zeroed (12 - length ds)) (length ds) rx.
Proof.
  intros Hd Hlen.
  pose proof (read_int_loop_digits ds [] (zeroed 12) rx Hd) as H.
  cbn [app length Nat.add] in H. rewrite H by (unfold zeroed; rewrite ?length_replicate; lia).
  unfold zeroed. rewrite drop_replicate. reflexivity.
Qed.

(** X3.  Erasing the digit typed last and typing another one replaces it:
    the entry goes on as if the second digit had been typed in the first
    place. *)
Theorem erase_then_retype_replaces
        (min_val max_val : Z) (ds : list ascii) (c e c' : ascii) (rx : list ascii) :
  forallb is_digit ds = true ->
  is_digit c = true ->
  is_digit c' = true ->
  is_erase e = true ->
  (length ds <= 9)%nat ->
  read_int_from_uart min_val max_val (ds ++ c :: e :: c' :: rx)
  = read_int_from_uart min_val max_val (ds ++ c' :: rx).
Proof.
  intros Hds Hc Hc' He Hlen. unfold read_int_from_uart, uart_bind.
  assert (Hloop : read_int_loop (zeroed 12) 0 (ds ++ c :: e :: c' :: rx)
                  = read_int_loop (zeroed 12) 0 (ds ++ c' :: rx)).
  { replace (ds ++ c :: e :: c' :: rx) with ((ds ++ [c]) ++ e :: c' :: rx)
      by (rewrite <- app_assoc; reflexivity).
    replace (ds ++ c' :: rx) with ((ds ++ [c']) ++ rx)
      by (rewrite <- app_assoc; reflexivity).
    rewrite !read_int_loop_typed
      by (rewrite ?forallb_app, ?length_app; cbn; rewrite ?Hds, ?Hc, ?Hc'; try reflexivity; lia).
    rewrite !length_app. cbn [length].
    replace (length ds + 1)%nat with (S (length ds)) by lia.
    rewrite (read_int_loop_erase _ _ e _ He (erase_is_no_newline e He)) by lia.
    destruct (Nat.ltb_spec (S (length ds)) 11); [|lia].
    destruct (digit_not_control c' Hc') as [Hn' He'].
    rewrite read_int_loop_cons by lia. rewrite Hn', He', Hc'.
    replace (12 - S (length ds))%nat with (11 - length ds)%nat by lia.
    rewrite <- !app_assoc. cbn [app].
    replace (11 - length ds)%nat with (11 - length ds)%nat by reflexivity.
    rewrite (insert_in_the_middle ds c c').
    rewrite <- app_assoc. reflexivity. }
  rewrite Hloop. reflexivity.
Qed.

(** The entry 1, 2, erase, 5, return is 15. *)
Lemma erase_then_retype_replaces_witness :
  read_int_from_uart 1 1000 (chars "1" ++ "2"%char :: BS :: "5"%char :: [CR])
  = read_int_from_uart 1 1000 (chars "1" ++ "5"%char :: [CR]).
Proof.
  exact (erase_then_retype_replaces 1 1000 (chars "1") "2" BS "5" [CR]
           eq_refl eq_refl eq_refl eq_refl ltac:(vm_compute; lia)).
Defined.

(** X4.  Erasing the digit typed last and pressing return does not remove
    it: the erase key moves the write position back and leaves the digit in
    the buffer, which [atoi] then reads to its end.  The answer is the one of
    the entry without the erase key. *)
Theorem erase_before_return_is_ineffective
        (min_val max_val : Z) (ds : list ascii) (c e : ascii) (rest : list ascii) :
  ds <> [] ->
  forallb is_digit ds = true ->
  is_digit c = true ->
  is_erase e = true ->
  (length ds <= 9)%nat ->
  read_int_from_uart min_val max_val (ds ++ c :: e :: CR :: rest)
  = read_int_from_uart min_val max_val (ds ++ c :: CR :: rest).
Proof.
  intros Hne Hds Hc He Hlen. unfold read_int_from_uart, uart_bind.
  assert (Hpos : (0 < length ds)%nat) by (destruct ds; cbn; [congruence|lia]).
  replace (ds ++ c :: e :: CR :: rest) with ((ds ++ [c]) ++ e :: CR :: rest)
    by (rewrite <- app_assoc; reflexivity).
  replace (ds ++ c :: CR :: rest) with ((ds ++ [c]) ++ CR :: rest)
    by (rewrite <- app_assoc; reflexivity).
  rewrite !read_int_loop_typed
    by (rewrite ?forallb_app, ?length_app; cbn; rewrite ?Hds, ?Hc; try reflexivity; lia).
  rewrite !length_app. cbn [length].
  replace (length ds + 1)%nat with (S (length ds)) by lia.
  rewrite (read_int_loop_erase _ _ e _ He (erase_is_no_newline e He)) by lia.
  destruct (Nat.ltb_spec (S (length ds)) 11); [|lia].
  rewrite !read_int_loop_cons by lia.
  change (is_newline CR) with true. cbv iota.
  destruct (Nat.ltb_spec 0 (length ds)); [|lia].
  destruct (Nat.ltb_spec 0 (S (length ds))); [|lia].
  cbn [fst snd].
  destruct (Nat.eqb_spec (length ds) 0); [lia|].
  destruct (Nat.eqb_spec (S (length ds)) 0); [lia|].
  reflexivity.
Qed.

(** The entry 1, 2, erase, return is answered by 12, not by 1. *)
Lemma erase_before_return_is_ineffective_witness :
  read_int_from_uart 1 1000 (chars "1" ++ "2"%char :: BS :: CR :: [])
  = read_int_from_uart 1 1000 (chars "1" ++ "2"%char :: CR :: []) /\
  read_int_from_uart 1 1000 (chars "1" ++ "2"%char :: CR :: []) = Ret 12 [].
Proof.
  split; [|reflexivity].
  exact (erase_before_return_is_ineffective 1 1000 (chars "1") "2" BS []
           ltac:(discriminate) eq_refl eq_refl eq_refl ltac:(vm_compute; lia)).
Defined.

Lemma read_int_loop_full input rx :
  read_int_loop input 11 rx = Ret (input, 11%nat) rx.
Proof. destruct rx; reflexivity. Qed.

(** X5.  The eleventh digit ends an entry without the return key: the answer
    is given at once, from the eleven digits (saturated at [INT_MAX]), and
    the bytes that follow stay on the line. *)
Theorem eleven_digits_end_the_entry
        (min_val max_val : Z) (ds rest : list ascii) :
  forallb is_digit ds = true ->
  length ds = 11%nat ->
  read_int_from_uart min_val max_val (ds ++ rest)
  = let value := Z.min (decimal_value ds) INT_MAX in
    Ret (if (value <? min_val) || (max_val <? value) then -1 else value) rest.
Proof.
  intros Hd Hlen. unfold read_int_from_uart, uart_bind.
  rewrite read_int_loop_typed by (try exact Hd; lia).
  rewrite Hlen. change (zeroed (12 - 11)) with [NUL].
  rewrite read_int_loop_full. cbn [fst snd Nat.eqb].
  unfold atoi. rewrite digits_value_stop by exact Hd.
  fold (decimal_value ds). cbv zeta.
  destruct ((Z.min (decimal_value ds) INT_MAX <? min_val)
            || (max_val <? Z.min (decimal_value ds) INT_MAX)); reflexivity.
Qed.

(** Eleven digits with leading zeros: 5 is answered and the return key is
    left for the next prompt. *)
Lemma eleven_digits_end_the_entry_witness :
  read_int_from_uart 1 1000 (chars "00000000005" ++ [CR]) = Ret 5 [CR].
Proof.
  exact (eleven_digits_end_the_entry 1 1000 (chars "00000000005") [CR] eq_refl eq_refl).
Defined.

(** *** What [configure_output] writes *)

Lemma alter_alter {A} (f g : A -> A) (i : nat) (l : list A) :
  alter f i (alter g i l) = alter (fun x => f (g x)) i l.
Proof.
  revert i. induction l as [|a l IH]; intros [|i]; cbn; try reflexivity.
  f_equal. apply IH.
Qed.

Lemma ask_pulse_limit_range rx :
  match ask_pulse_limit rx with
  | Ret lim _ => lim = -1 \/ lim = 0 \/ 1 <= lim <= 1000000
  | Starved => True
  | Undefined => False
  end.
Proof.
  unfold ask_pulse_limit, uart_bind, uart_read_char.
  destruct rx as [|c rx]; [exact I|].
  destruct (char_eqb c "S" || char_eqb c "s").
  - pose proof (read_int_from_uart_range 1 1000000 rx) as H.
    destruct (read_int_from_uart 1 1000000 rx); [|exact I|exact H].
    destruct H as [->|H]; [left; reflexivity|right; right; exact H].
  - right. left. reflexivity.
Qed.

(** Every result of [configure_output] is the array with one function applied
    to the slot of the output; that function writes the pin and the label
    and then either a complete configuration or a rejected entry. *)
Lemma configure_output_shape output_num pin cfgs rx ok cfgs' rest :
  configure_output output_num pin cfgs rx = Ret (ok, cfgs') rest ->
  exists f : pulse_config_t -> pulse_config_t,
    cfgs' = alter f (Z.to_nat (output_num - 1)) cfgs /\
    forall c,
      gpio (f c) = pin /\
      label (f c) = (if output_num =? 1 then "OUT1"%string else "OUT2"%string) /\
      if ok then
        1 <= interval_ms (f c) <= MAX_INTERVAL_MS /\
        MIN_PULSE_MS <= pulse_duration_ms (f c) <= MAX_PULSE_MS /\
        (max_pulses (f c) = -1 \/ max_pulses (f c) = 0 \/
         1 <= max_pulses (f c) <= 1000000) /\
        pps (f c) = Z.quot 1000 (interval_ms (f c)) /\
        state (f c) = STATE_STOPPED /\
        pulse_count (f c) = 0
      else
        (interval_ms (f c) = -1 \/ pulse_duration_ms (f c) = -1) /\
        mode (f c) = mode c /\ max_pulses (f c) = max_pulses c /\
        pps (f c) = pps c /\ state (f c) = state c /\
        pulse_count (f c) = pulse_count c.
Proof.
  unfold configure_output. unfold uart_bind at 1.
  pose proof (ask_pps_config_range rx) as Ha.
  destruct (ask_pps_config rx) as [iv rx1| |]; [|discriminate|contradiction].
  destruct (Z.ltb_spec iv 0) as [Hneg|Hpos].
  { unfold uart_ret. intros H. injection H as <- <- <-.
    eexists. split; [rewrite !alter_alter; reflexivity|].
    intros c. cbn. repeat split; try reflexivity. left. lia. }
  unfold uart_bind at 1.
  pose proof (read_int_from_uart_range MIN_PULSE_MS MAX_PULSE_MS rx1) as Hp.
  destruct (read_int_from_uart MIN_PULSE_MS MAX_PULSE_MS rx1) as [pd rx2| |];
    [|discriminate|contradiction].
  destruct (Z.ltb_spec pd 0) as [Hpneg|Hppos].
  { unfold uart_ret. intros H. injection H as <- <- <-.
    eexists. split; [rewrite !alter_alter; reflexivity|].
    intros c. cbn. repeat split; try reflexivity. right.
    unfold MIN_PULSE_MS in Hp. lia. }
  unfold uart_bind at 1, select_mode, uart_bind at 1, uart_read_char.
  destruct rx2 as [|c2 rx3]; [discriminate|]. unfold uart_ret at 1.
  unfold uart_bind at 1.
  pose proof (ask_pulse_limit_range rx3) as Hl.
  destruct (ask_pulse_limit rx3) as [lim rx4| |]; [|discriminate|contradiction].
  unfold uart_bind, uart_eval, c_div.
  destruct (Z.eqb_spec iv 0) as [E|_]; [lia|].
  unfold uart_ret. intros H. injection H as <- <- <-.
  eexists. split; [rewrite !alter_alter; reflexivity|].
  intros c. cbn. repeat split; try reflexivity; try lia; exact Hl.
Qed.

(** X6.  [configure_output] writes to the slot of its output and to nothing
    else: the array keeps its length and its other elements.  When it
    fails, a rejected entry (-1) is left in the interval or in the pulse
    duration of that slot, and the mode, the limit, the state and the pulse
    counter of the slot are as before. *)
Theorem configure_output_touches_one_slot
        (output_num pin : Z) (cfgs : list pulse_config_t) (rx : list ascii)
        (ok : bool) (cfgs' : list pulse_config_t) (rest : list ascii) :
  configure_output output_num pin cfgs rx = Ret (ok, cfgs') rest ->
  length cfgs' = length cfgs /\
  (forall j, j <> Z.to_nat (output_num - 1) -> cfgs' !! j = cfgs !! j) /\
  (ok = false ->
   forall c, cfgs !! Z.to_nat (output_num - 1) = Some c ->
     exists c', cfgs' !! Z.to_nat (output_num - 1) = Some c' /\
                (interval_ms c' = -1 \/ pulse_duration_ms c' = -1) /\
                mode c' = mode c /\ max_pulses c' = max_pulses c /\
                state c' = state c /\ pulse_count c' = pulse_count c).
Proof.
  intros H. destruct (configure_output_shape _ _ _ _ _ _ _ H) as (f & -> & Hf).
  split; [apply length_alter|]. split.
  - intros j Hj. apply list_lookup_alter_ne. congruence.
  - intros -> c Hc. exists (f c). rewrite list_lookup_alter_eq, Hc.
    destruct (Hf c) as (_ & _ & Hbad & Hm & Hmax & _ & Hs & Hpc).
    repeat split; assumption.
Qed.

(** An interval entry of 0 for output 1: the call fails and leaves -1 in the
    interval of slot 0. *)
Lemma configure_output_touches_one_slot_witness :
  length [set_interval_ms (-1) (set_label "OUT1" (set_gpio 4 blank)); blank] = 2%nat /\
  (forall j, j <> 0%nat ->
     [set_interval_ms (-1) (set_label "OUT1" (set_gpio 4 blank)); blank] !! j
     = [blank; blank] !! j) /\
  (false = false ->
   forall c, [blank; blank] !! 0%nat = Some c ->
     exists c', [set_interval_ms (-1) (set_label "OUT1" (set_gpio 4 blank)); blank] !! 0%nat
                = Some c' /\
                (interval_ms c' = -1 \/ pulse_duration_ms c' = -1) /\
                mode c' = mode c /\ max_pulses c' = max_pulses c /\
                state c' = state c /\ pulse_count c' = pulse_count c).
Proof.
  exact (configure_output_touches_one_slot 1 4 [blank; blank] (chars "I0" ++ [CR])
           false _ [] eq_refl).
Defined.

(** X7.  When [configure_output] succeeds, the slot of the output holds the
    pin, an interval of 1 to 3600000 ms, a pulse duration of 1 to 10000 ms,
    the PPS value recomputed as [1000 / interval_ms], the state
    [STATE_STOPPED] and a pulse counter of 0; the limit is 0, a value of 1 to
    1000000, or the -1 of a rejected limit entry, which does not make the
    call fail. *)
Theorem configure_output_success
        (output_num pin : Z) (cfgs : list pulse_config_t) (rx : list ascii)
        (cfgs' : list pulse_config_t) (rest : list ascii) (c : pulse_config_t) :
  configure_output output_num pin cfgs rx = Ret (true, cfgs') rest ->
  cfgs !! Z.to_nat (output_num - 1) = Some c ->
  exists c',
    cfgs' !! Z.to_nat (output_num - 1) = Some c' /\
    gpio c' = pin /\
    1 <= interval_ms c' <= 3600000 /\
    1 <= pulse_duration_ms c' <= 10000 /\
    (max_pulses c' = -1 \/ max_pulses c' = 0 \/ 1 <= max_pulses c' <= 1000000) /\
    pps c' = Z.quot 1000 (interval_ms c') /\
    0 <= pps c' <= 1000 /\
    state c' = STATE_STOPPED /\
    pulse_count c' = 0.
Proof.
  intros H Hc. destruct (configure_output_shape _ _ _ _ _ _ _ H) as (f & -> & Hf).
  exists (f c). rewrite list_lookup_alter_eq, Hc.
  destruct (Hf c) as (Hg & _ & Hi & Hp & Hl & Hpps & Hs & Hpc).
  unfold MAX_INTERVAL_MS, MIN_PULSE_MS, MAX_PULSE_MS in *.
  repeat split; try assumption; try lia.
  - rewrite Hpps. apply Z.quot_pos; lia.
  - rewrite Hpps. apply Z.quot_le_upper_bound; lia.
Qed.

(** Output 2 at 1500 ms with a limit entry of 0, which is out of range. *)
Lemma configure_output_success_witness :
  exists c',
    [blank; mk_config 5 1500 20 MODE_RANDOM "OUT2" (-1) 0 STATE_STOPPED 0] !! 1%nat
    = Some c' /\
    gpio c' = 5 /\
    1 <= interval_ms c' <= 3600000 /\
    1 <= pulse_duration_ms c' <= 10000 /\
    (max_pulses c' = -1 \/ max_pulses c' = 0 \/ 1 <= max_pulses c' <= 1000000) /\
    pps c' = Z.quot 1000 (interval_ms c') /\
    0 <= pps c' <= 1000 /\
    state c' = STATE_STOPPED /\
    pulse_count c' = 0.
Proof.
  exact (configure_output_success 2 5 [blank; blank]
           (chars "I1500" ++ CR :: chars "20" ++ CR :: chars "RS0" ++ [CR])
           _ [] blank eq_refl eq_refl).
Defined.

(** *** Pulses per second, there and back *)

Lemma quot_1000_there_and_back pps :
  1 <= pps <= 1000 ->
  pps <= Z.quot 1000 (Z.quot 1000 pps) <= 1000 /\
  Z.quot 1000 (Z.quot 1000 (Z.quot 1000 pps)) = Z.quot 1000 pps.
Proof.
  intros Hp.
  pose proof (quot_1000_range pps Hp) as Hq.
  pose proof (quot_1000_range (Z.quot 1000 pps) Hq) as Hs.
  rewrite !Z.quot_div_nonneg in * by lia.
  set (q := 1000 / pps) in *. set (s := 1000 / q) in *.
  assert (Hqp : q * pps <= 1000).
  { unfold q. rewrite Z.mul_comm. apply Z.mul_div_le. lia. }
  assert (Hps : pps <= s).
  { unfold s. apply Z.div_le_lower_bound; lia. }
  split; [lia|].
  apply Z.le_antisymm.
  - unfold q. apply Z.div_le_compat_l; lia.
  - apply Z.div_le_lower_bound; [lia|].
    unfold s. rewrite Z.mul_comm. apply Z.mul_div_le. lia.
Qed.

(** X8.  A rate entered in pulses per second is kept as the interval
    [1000 / pps], and the rate stored with it is recomputed from that
    interval: it is never below the rate entered, may be above it, and gives
    the same interval again. *)
Theorem pps_entry_is_stored_rounded_up
        (pps : Z) (ds_p : list ascii) (m : ascii) (rest : list ascii)
        (c0 : pulse_config_t) (others : list pulse_config_t) :
  1 <= pps <= 1000 ->
  well_formed_entry ds_p = true ->
  1 <= decimal_value ds_p <= 10000 ->
  let interval := Z.quot 1000 pps in
  let stored := Z.quot 1000 interval in
  configure_output 1 GPIO_OUT_1 (c0 :: others)
    ("P"%char :: decimal pps ++ CR :: ds_p ++ CR :: m :: "N"%char :: rest)
  = Ret (true,
         mk_config GPIO_OUT_1 interval (decimal_value ds_p)
                   (if char_eqb m "D"%char || char_eqb m "d"%char
                    then MODE_DEFINED else MODE_RANDOM)
                   "OUT1" 0 stored STATE_STOPPED 0
         :: others) rest /\
  pps <= stored <= 1000 /\
  Z.quot 1000 stored = interval.
Proof.
  intros Hp Hwp Hpd interval stored.
  destruct (quot_1000_there_and_back pps Hp) as [Hstored Hback].
  split; [|split; [exact Hstored|exact Hback]].
  destruct (decimal_entry pps ltac:(lia)) as [Hwf Hv].
  pose proof (quot_1000_range pps Hp) as Hq. fold interval in Hq.
  unfold configure_output. unfold uart_bind at 1.
  rewrite (ask_pps_config_pps_entry (decimal pps) _ Hwf), Hv.
  destruct (Z.leb_spec 1 pps); [|lia].
  destruct (Z.leb_spec pps 1000); [|lia]. cbn [andb]. fold interval.
  destruct (Z.ltb_spec interval 0); [lia|].
  unfold uart_bind at 1.
  rewrite (read_int_from_uart_entry MIN_PULSE_MS MAX_PULSE_MS ds_p _ Hwp) by reflexivity.
  unfold MIN_PULSE_MS, MAX_PULSE_MS.
  destruct (Z.leb_spec 1 (decimal_value ds_p)); [|lia].
  destruct (Z.leb_spec (decimal_value ds_p) 10000); [|lia]. cbn [andb].
  destruct (Z.ltb_spec (decimal_value ds_p) 0); [lia|].
  unfold uart_bind, select_mode, ask_pulse_limit, uart_bind, uart_read_char,
    uart_ret, uart_eval, c_div.
  change (char_eqb "N" "S" || char_eqb "N" "s") with false. cbv iota.
  destruct (Z.eqb_spec interval 0); [lia|].
  reflexivity.
Qed.

(** 600 pulses per second become an interval of 1 ms and are stored as 1000
    pulses per second. *)
Lemma pps_entry_is_stored_rounded_up_witness :
  configure_output 1 GPIO_OUT_1 [blank; blank]
    (chars "P600" ++ CR :: chars "1" ++ CR :: chars "DN")
  = Ret (true, [mk_config GPIO_OUT_1 1 1 MODE_DEFINED "OUT1" 0 1000 STATE_STOPPED 0;
                blank]) [] /\
  600 <= 1000 <= 1000 /\
  Z.quot 1000 1000 = 1.
Proof.
  exact (pps_entry_is_stored_rounded_up 600 (chars "1") "D" [] blank [blank]
           ltac:(lia) eq_refl ltac:(vm_compute; intuition discriminate)).
Defined.

(** *** The configuration cycle *)






End DialogueExtras.

(** * More on the pulse task of the second firmware *)

Module SchedulerExtras.
Import Session DialogueFacts SchedulerFacts LifecycleFacts.

(** *** The pause toggle *)

Lemma handle_pause_system_frame w :
  handle_pause_system w
  = set_active_configs (active_configs (handle_pause_system w))
                       (set_pause_requested (negb (pause_requested w)) w).
Proof.
  unfold handle_pause_system. cbn [pause_requested set_pause_requested].
  set (w0 := set_pause_requested (negb (pause_requested w)) w).
  destruct (negb (pause_requested w)); unfold broadcast_state;
    rewrite (fold_update_frame _ _ w0) at 1; reflexivity.
Qed.

Lemma handle_pause_system_lookup w i :
  active_configs (handle_pause_system w) !! i
  = if decide (i < Z.to_nat (active_outputs w))%nat
    then set_state (if pause_requested w then STATE_RUNNING else STATE_PAUSED)
         <$> active_configs w !! i
    else active_configs w !! i.
Proof.
  unfold handle_pause_system. cbn [pause_requested set_pause_requested].
  destruct (pause_requested w); cbn [negb]; unfold broadcast_state;
    rewrite fold_update_lookup; reflexivity.
Qed.

Lemma fold_update_length (f : pulse_config_t -> pulse_config_t) (l : list nat) :
  forall w,
    length (active_configs (fold_left (fun w i => update_config i f w) l w))
    = length (active_configs w).
Proof.
  induction l as [|k l IH]; intros w; [reflexivity|].
  cbn [fold_left]. rewrite IH. unfold update_config. cbn. apply length_alter.
Qed.

(** X11.  The space bar flips the pause flag and writes the matching state,
    paused or running, to the first [active_outputs] channels; it changes no
    other field of them (counters, limits and timing stay), no channel
    beyond them, and nothing else of the session.  After it, the active
    channels are paused exactly when the flag is set. *)
Theorem pause_toggle_writes_states_only (w : world) (i : nat) :
  let w' := handle_pause_system w in
  let s := if pause_requested w' then STATE_PAUSED else STATE_RUNNING in
  pause_requested w' = negb (pause_requested w) /\
  active_configs w' !! i
  = (if decide (i < Z.to_nat (active_outputs w))%nat
     then set_state s <$> active_configs w !! i
     else active_configs w !! i) /\
  length (active_configs w') = length (active_configs w) /\
  active_outputs w' = active_outputs w /\
  system_running w' = system_running w /\
  tick_count w' = tick_count w /\
  gpio_trace w' = gpio_trace w /\
  pulse_log w' = pulse_log w /\
  pause_requested (handle_pause_system w') = pause_requested w.
Proof.
  cbv zeta.
  assert (Hflag : forall v, pause_requested (handle_pause_system v)
                            = negb (pause_requested v)).
  { intros v. rewrite handle_pause_system_frame. reflexivity. }
  rewrite !Hflag, negb_involutive.
  split; [reflexivity|]. split.
  { rewrite handle_pause_system_lookup. destruct (pause_requested w); reflexivity. }
  split.
  { unfold handle_pause_system, broadcast_state.
    cbn [pause_requested set_pause_requested].
    destruct (negb (pause_requested w)); rewrite fold_update_length; reflexivity. }
  rewrite handle_pause_system_frame. repeat split.
Qed.

(** *** Invariants of arbitrary runs *)

Lemma run_cons e es s : run (e :: es) s = run es (step s e).
Proof. reflexivity. Qed.

(** One poll, by cases. *)
Lemma iteration_cases w i lp c :
  active_configs w !! i = Some c ->
  (loop_condition w c = false /\
   pulse_task_iteration i lp w = (finished i c w, Deleted)) \/
  (loop_condition w c = true /\ state c = STATE_PAUSED /\
   pulse_task_iteration i lp w = (vTaskDelay 100 w, Looping i lp)) \/
  (loop_condition w c = true /\ state c <> STATE_PAUSED /\
   pulse_due (to_uint32 (tick_count w)) lp c = false /\
   pulse_task_iteration i lp w = (vTaskDelay 1 w, Looping i lp)) \/
  (loop_condition w c = true /\ state c <> STATE_PAUSED /\
   pulse_due (to_uint32 (tick_count w)) lp c = true /\
   pulse_task_iteration i lp w = (fired i c w, Looping i (to_uint32 (tick_count w)))).
Proof.
  intros Hc.
  destruct (loop_condition w c) eqn:Hl.
  - destruct (decide (state c = STATE_PAUSED)) as [Hs|Hs].
    + right. left. repeat split; [exact Hs|apply (iteration_paused w i lp c); assumption].
    + destruct (pulse_due (to_uint32 (tick_count w)) lp c) eqn:Hd.
      * right. right. right.
        repeat split; [exact Hs|apply (iteration_fire w i lp c); assumption].
      * right. right. left.
        repeat split; [exact Hs|apply (iteration_wait w i lp c); assumption].
  - left. split; [reflexivity|apply (iteration_finish w i lp c); assumption].
Qed.

Lemma step_counted limit i base s e :
  1 <= limit <= INT_MAX ->
  counted limit i base s ->
  counted limit i base (step s e).
Proof.
  intros Hlim. destruct s as [w t]. unfold counted. cbn [fst snd].
  intros (Ht & c & Hc & Hmax & Hpc & Hlog).
  destruct e as [| |d|]; cbn [step fst snd].
  - destruct Ht as [[lp ->]| ->].
    + destruct (iteration_cases w i lp c Hc)
        as [(_ & ->)|[(_ & _ & ->)|[(_ & _ & _ & ->)|(Hl & _ & _ & ->)]]];
        cbn [fst snd].
      * split; [right; reflexivity|]. exists (set_state STATE_STOPPED c).
        unfold finished. cbn [active_configs pulse_log].
        rewrite list_lookup_alter_eq, Hc. cbn; repeat split; first [assumption | reflexivity | lia].
      * split; [left; eexists; reflexivity|]. exists c. world_ops.
        cbn; repeat split; first [assumption | reflexivity | lia].
      * split; [left; eexists; reflexivity|]. exists c. world_ops.
        cbn; repeat split; first [assumption | reflexivity | lia].
      * assert (Hlt : pulse_count c < limit).
        { unfold loop_condition in Hl. apply andb_true_iff in Hl as [_ Hl].
          apply orb_true_iff in Hl as [Hl|Hl]; [apply Z.eqb_eq in Hl; lia|].
          apply Z.ltb_lt in Hl. lia. }
        split; [left; eexists; reflexivity|].
        exists (set_pulse_count (pulse_count c + 1) c).
        unfold fired. cbn [active_configs pulse_log].
        rewrite list_lookup_alter_eq, Hc. cbn [fmap option_fmap option_map].
        rewrite to_int32_small by lia.
        repeat split; try assumption; cbn [pulse_count set_pulse_count]; try lia.
        rewrite length_app, Hlog. cbn [length]. lia.
    + split; [right; reflexivity|]. exists c. cbn; repeat split; first [assumption | reflexivity | lia].
  - split; [exact Ht|].
    rewrite (handle_pause_system_frame w). cbn [active_configs pulse_log set_active_configs set_pause_requested].
    rewrite handle_pause_system_lookup, Hc.
    destruct (decide (i < Z.to_nat (active_outputs w))%nat).
    + eexists. split; [reflexivity|]. cbn. cbn; repeat split; first [assumption | reflexivity | lia].
    + exists c. cbn; repeat split; first [assumption | reflexivity | lia].
  - split; [exact Ht|]. exists c. world_ops. cbn; repeat split; first [assumption | reflexivity | lia].
  - split; [exact Ht|]. exists c. world_ops. cbn; repeat split; first [assumption | reflexivity | lia].
Qed.

(** X12.  Whatever happens to a limited channel after its activation, in any
    order (polls, pause and resume requests, time passing, the running flag
    being cleared), its pulse counter stays between 0 and the limit, and the
    number of pulses logged since the activation is the counter: no pulse
    goes uncounted and the limit is never exceeded. *)
Theorem limit_is_never_exceeded
        (w : world) (i : nat) (c : pulse_config_t) (es : list event) :
  active_configs w !! i = Some c ->
  1 <= max_pulses c <= INT_MAX ->
  exists c',
    active_configs (run es (pulse_task (Some i) w)).1 !! i = Some c' /\
    0 <= pulse_count c' <= max_pulses c /\
    length (pulse_log (run es (pulse_task (Some i) w)).1)
    = (length (pulse_log w) + Z.to_nat (pulse_count c'))%nat.
Proof.
  intros Hc Hlim.
  assert (Hstart : counted (max_pulses c) i (length (pulse_log w))
                           (pulse_task (Some i) w)).
  { unfold pulse_task. rewrite Hc. unfold counted. cbn [fst snd].
    split; [left; eexists; reflexivity|].
    exists (set_pulse_count 0 (set_state STATE_RUNNING c)). world_ops.
    rewrite !list_lookup_alter_eq, Hc. cbn. repeat split; lia. }
  assert (Hrun : forall es s, counted (max_pulses c) i (length (pulse_log w)) s ->
                              counted (max_pulses c) i (length (pulse_log w)) (run es s)).
  { clear Hstart. intros es'. induction es' as [|e es' IH]; intros s Hs; [exact Hs|].
    rewrite run_cons. apply IH, step_counted; assumption. }
  destruct (Hrun es _ Hstart) as (_ & c' & Hc' & _ & Hpc & Hlog).
  exists c'. repeat split; assumption || lia.
Qed.

(** The sample channel with the limit 3, paused and resumed in the middle of
    far more polls than three pulses take. *)
Lemma limit_is_never_exceeded_witness :
  let es := replicate 1500 Poll ++ [Space; Poll; Elapse 700; Space]
            ++ replicate 3000 Poll in
  exists c',
    active_configs (run es (pulse_task (Some 0%nat) (sample_session 3 5000))).1 !! 0%nat
    = Some c' /\
    0 <= pulse_count c' <= 3 /\
    length (pulse_log (run es (pulse_task (Some 0%nat) (sample_session 3 5000))).1)
    = (0 + Z.to_nat (pulse_count c'))%nat.
Proof.
  exact (limit_is_never_exceeded (sample_session 3 5000) 0 (sample_config 3) _
           eq_refl ltac:(vm_compute; intuition discriminate)).
Defined.

(** Once its task is deleted, nothing is written for a channel any more. *)
Lemma run_deleted es : forall w,
  (run es (w, Deleted)).2 = Deleted /\
  pulse_log (run es (w, Deleted)).1 = pulse_log w /\
  gpio_trace (run es (w, Deleted)).1 = gpio_trace w.
Proof.
  induction es as [|e es IH]; intros w; [repeat split|].
  rewrite run_cons.
  destruct e as [| |d|]; cbn [step].
  - apply IH.
  - destruct (IH (handle_pause_system w)) as (Ht & Hl & Hg).
    rewrite Ht, Hl, Hg, (handle_pause_system_frame w). repeat split.
  - destruct (IH (vTaskDelay d w)) as (Ht & Hl & Hg).
    rewrite Ht, Hl, Hg. repeat split.
  - destruct (IH (set_system_running false w)) as (Ht & Hl & Hg).
    rewrite Ht, Hl, Hg. repeat split.
Qed.

(** X13.  Once the running flag is cleared, the next poll ends the task,
    paused or not and whatever is left of its limit: it emits no pulse, gives
    the end-of-run signal and is deleted, and nothing that happens later
    makes it log a pulse or touch its pin again. *)
Theorem cleared_flag_ends_the_task
        (w : world) (i : nat) (lp : Z) (c : pulse_config_t) (es : list event) :
  active_configs w !! i = Some c ->
  let s := run (Halt :: Poll :: es) (w, Looping i lp) in
  s.2 = Deleted /\
  pulse_log s.1 = pulse_log w /\
  gpio_trace s.1 = gpio_trace w ++ end_toggles (gpio c) (tick_count w).
Proof.
  intros Hc s. subst s. rewrite !run_cons. cbn [step].
  rewrite (iteration_finish (set_system_running false w) i lp c Hc) by reflexivity.
  destruct (run_deleted es (finished i c (set_system_running false w)))
    as (Ht & Hl & Hg).
  rewrite Ht, Hl, Hg. repeat split.
Qed.

(** The sample channel, paused after its first pulse and then halted. *)
Lemma cleared_flag_ends_the_task_witness :
  let w := (run [Poll; Space] (pulse_task (Some 0%nat) (sample_session 0 1000))).1 in
  let s := run [Halt; Poll; Space; Poll; Elapse 5000; Space; Poll] (w, Looping 0 1000) in
  s.2 = Deleted /\
  pulse_log s.1 = pulse_log w /\
  gpio_trace s.1 = gpio_trace w ++ end_toggles GPIO_OUT_1 1101.
Proof.
  exact (cleared_flag_ends_the_task
           (run [Poll; Space] (pulse_task (Some 0%nat) (sample_session 0 1000))).1
           0 1000 (set_state STATE_PAUSED (set_pulse_count 1 (sample_config 0)))
           [Space; Poll; Elapse 5000; Space; Poll] eq_refl).
Defined.

(** *** The level of the line *)

Lemma line_idle_snoc w evs ev :
  ev_level ev = 1 ->
  gpio_trace w = evs ++ [ev] -> line_idle w.
Proof. intros Hl Ht. exists ev. rewrite Ht, last_snoc. split; [reflexivity|exact Hl]. Qed.

Lemma step_line_idle s e : line_idle s.1 -> line_idle (step s e).1.
Proof.
  destruct s as [w t]. cbn [fst]. intros Hidle.
  destruct e as [| |d|]; cbn [step].
  - destruct t as [i lp| |]; [|exact Hidle|exact Hidle].
    destruct (active_configs w !! i) as [c|] eqn:Hc.
    + destruct (iteration_cases w i lp c Hc)
        as [(_ & ->)|[(_ & _ & ->)|[(_ & _ & _ & ->)|(_ & _ & _ & ->)]]];
        cbn [fst]; try exact Hidle.
      * apply (line_idle_snoc _ (gpio_trace w ++ removelast (end_toggles (gpio c) (tick_count w)))
                 (mk_gpio_event (tick_count w + 500) (gpio c) 1) eq_refl).
        unfold finished, end_toggles. cbn [gpio_trace removelast].
        rewrite <- app_assoc. reflexivity.
      * apply (line_idle_snoc _ (gpio_trace w ++ [mk_gpio_event (tick_count w) (gpio c) 0])
                 (mk_gpio_event (tick_count w + pulse_duration_ms c) (gpio c) 1) eq_refl).
        unfold fired, pulse_events. cbn [gpio_trace].
        rewrite <- app_assoc. reflexivity.
    + unfold pulse_task_iteration. rewrite Hc. exact Hidle.
  - cbn [fst]. unfold line_idle. rewrite (handle_pause_system_frame w). exact Hidle.
  - exact Hidle.
  - exact Hidle.
Qed.

(** X14.  The line of a channel rests high: from its activation on, whatever
    happens in whatever order, the level written last is the idle level 1
    each time the task is back at the head of its loop or gone; a pulse or
    an end-of-run toggle never leaves the line low. *)
Theorem line_rests_high
        (w : world) (i : nat) (c : pulse_config_t) (es : list event) :
  active_configs w !! i = Some c ->
  exists ev,
    last (gpio_trace (run es (pulse_task (Some i) w)).1) = Some ev /\
    ev_level ev = 1.
Proof.
  intros Hc.
  assert (Hstart : line_idle (pulse_task (Some i) w).1).
  { unfold pulse_task. rewrite Hc. cbn [fst].
    apply (line_idle_snoc _ (gpio_trace w) (mk_gpio_event (tick_count w) (gpio c) 1) eq_refl).
    world_ops. reflexivity. }
  assert (Hrun : forall es s, line_idle s.1 -> line_idle (run es s).1).
  { clear. intros es. induction es as [|e es IH]; intros s Hs; [exact Hs|].
    rewrite run_cons. apply IH, step_line_idle, Hs. }
  exact (Hrun es _ Hstart).
Qed.

(** The sample channel, stopped by the flag in the middle of a run. *)
Lemma line_rests_high_witness :
  exists ev,
    last (gpio_trace (run (replicate 1200 Poll ++ [Space; Poll; Halt; Poll])
                          (pulse_task (Some 0%nat) (sample_session 0 1000))).1)
    = Some ev /\
    ev_level ev = 1.
Proof.
  exact (line_rests_high (sample_session 0 1000) 0 (sample_config 0) _ eq_refl).
Defined.

(** *** A channel without limit *)

(** X15.  A channel without pulse limit never ends by itself: as long as the
    running flag is not cleared, its task is at the head of its loop after
    every sequence of polls, pause and resume requests and waits, however
    long. *)
Theorem unlimited_channel_never_ends
        (w : world) (i : nat) (c : pulse_config_t) (es : list event) :
  active_configs w !! i = Some c ->
  max_pulses c = 0 ->
  system_running w = true ->
  forallb keeps_running es = true ->
  exists lp, (run es (pulse_task (Some i) w)).2 = Looping i lp.
Proof.
  intros Hc Hmax Hsr Hes.
  assert (Hrun : forall es s,
             forallb keeps_running es = true ->
             (system_running s.1 = true /\
              (exists c', active_configs s.1 !! i = Some c' /\ max_pulses c' = 0) /\
              exists lp, s.2 = Looping i lp) ->
             exists lp, (run es s).2 = Looping i lp).
  { clear. intros es. induction es as [|e es IH]; intros [w t] Hes (Hsr & Hc & Ht).
    - exact Ht.
    - cbn [forallb] in Hes. apply andb_true_iff in Hes as [He Hes].
      rewrite run_cons. apply (IH _ Hes). cbn [fst snd] in *.
      destruct Hc as (c & Hc & Hmax). destruct Ht as [lp ->].
      destruct e as [| |d|]; cbn [keeps_running] in He; try discriminate; cbn [step].
      + assert (Hl : loop_condition w c = true).
        { unfold loop_condition. rewrite Hsr, Hmax. reflexivity. }
        destruct (iteration_cases w i lp c Hc)
          as [(Hf & _)|[(_ & _ & ->)|[(_ & _ & _ & ->)|(_ & _ & _ & ->)]]];
          [congruence| | |]; cbn [fst snd].
        * world_ops. repeat split; [exact Hsr|exists c; split; assumption|eexists; reflexivity].
        * world_ops. repeat split; [exact Hsr|exists c; split; assumption|eexists; reflexivity].
        * unfold fired. cbn [system_running active_configs].
          repeat split; [exact Hsr| |eexists; reflexivity].
          rewrite list_lookup_alter_eq, Hc. eexists. split; [reflexivity|exact Hmax].
      + rewrite (handle_pause_system_frame w).
        cbn [system_running active_configs set_active_configs set_pause_requested fst snd].
        repeat split; [exact Hsr| |eexists; reflexivity].
        rewrite handle_pause_system_lookup, Hc.
        destruct (decide (i < Z.to_nat (active_outputs w))%nat);
          eexists; (split; [reflexivity|exact Hmax]).
      + world_ops. cbn [fst snd].
        repeat split; [exact Hsr|exists c; split; assumption|eexists; reflexivity]. }
  apply (Hrun es _ Hes). unfold pulse_task. rewrite Hc. cbn [fst snd]. world_ops.
  repeat split; [exact Hsr| |eexists; reflexivity].
  rewrite !list_lookup_alter_eq, Hc. eexists. split; [reflexivity|exact Hmax].
Qed.

(** The sample channel without limit, polled, paused and resumed. *)
Lemma unlimited_channel_never_ends_witness :
  exists lp,
    (run (replicate 2500 Poll ++ [Space; Poll; Elapse 100000; Space] ++ replicate 2500 Poll)
         (pulse_task (Some 0%nat) (sample_session 0 1000))).2 = Looping 0 lp.
Proof.
  exact (unlimited_channel_never_ends (sample_session 0 1000) 0 (sample_config 0)
           (replicate 2500 Poll ++ [Space; Poll; Elapse 100000; Space] ++ replicate 2500 Poll)
           eq_refl eq_refl eq_refl eq_refl).
Defined.

(** *** The spacing of pulses *)

Lemma uint32_difference a b : to_uint32 (to_uint32 a - to_uint32 b) = to_uint32 (a - b).
Proof. unfold to_uint32. symmetry. apply Zminus_mod. Qed.

(** X16.  In a running session that is not paused, the pulse after one that
    starts at tick [t] starts at [t + max (interval_ms, pulse_duration_ms + 1)]
    exactly: the interval is measured from the start of the pulse, without
    drift, also when the tick counter wraps around 2^32, and a pulse that is
    not shorter than the interval is followed by the next one after a single
    tick. *)
Theorem pulses_are_evenly_spaced
        (w : world) (i : nat) (lp : Z) (c : pulse_config_t) :
  active_configs w !! i = Some c ->
  system_running w = true ->
  state c <> STATE_PAUSED ->
  max_pulses c = 0 \/ pulse_count c + 1 < max_pulses c ->
  0 <= pulse_count c < INT_MAX ->
  0 <= interval_ms c < UINT32_MODULUS ->
  0 <= pulse_duration_ms c < UINT32_MODULUS - 1 ->
  pulse_due (to_uint32 (tick_count w)) lp c = true ->
  exists k,
    pulse_ticks (run (replicate k Poll) (w, Looping i lp)).1
    = pulse_ticks w
      ++ [tick_count w;
          tick_count w + Z.max (interval_ms c) (pulse_duration_ms c + 1)].
Proof.
  intros Hc Hsr Hs Hleft Hpc Hi Hpd Hdue.
  set (t := tick_count w) in *.
  set (gap := Z.max (interval_ms c) (pulse_duration_ms c + 1)).
  set (d := Z.to_nat (gap - (pulse_duration_ms c + 1))).
  assert (Hl : loop_condition w c = true).
  { unfold loop_condition. rewrite Hsr. cbn [andb].
    destruct Hleft as [->|Hlt]; [reflexivity|].
    destruct (Z.ltb_spec (pulse_count c) (max_pulses c)); [apply orb_true_r|lia]. }
  set (w1 := fired i c w).
  set (c1 := set_pulse_count (pulse_count c + 1) c).
  assert (Hc1 : active_configs w1 !! i = Some c1).
  { unfold w1, fired. cbn [active_configs]. rewrite list_lookup_alter_eq, Hc.
    cbn. rewrite to_int32_small by lia. reflexivity. }
  assert (Hl1 : loop_condition w1 c1 = true).
  { unfold loop_condition, w1, fired. cbn. rewrite Hsr. cbn [andb].
    destruct Hleft as [->|Hlt]; [reflexivity|].
    destruct (Z.ltb_spec (pulse_count c + 1) (max_pulses c)); [apply orb_true_r|lia]. }
  assert (Hs1 : state c1 <> STATE_PAUSED) by exact Hs.
  assert (Htick1 : tick_count w1 = t + pulse_duration_ms c + 1) by reflexivity.
  assert (Helapsed : forall j, 0 <= j -> pulse_duration_ms c + 1 + j < UINT32_MODULUS ->
                        to_uint32 (to_uint32 (tick_count w1 + j) - to_uint32 t)
                        = pulse_duration_ms c + 1 + j).
  { intros j Hj Hlt. rewrite uint32_difference, Htick1.
    replace (t + pulse_duration_ms c + 1 + j - t) with (pulse_duration_ms c + 1 + j) by lia.
    apply to_uint32_small. lia. }
  assert (Hwait : forall j, 0 <= j < Z.of_nat d ->
                    pulse_due (to_uint32 (tick_count w1 + j)) (to_uint32 t) c1 = false).
  { intros j Hj. unfold pulse_due. cbn [interval_ms c1 set_pulse_count].
    rewrite (to_uint32_small (interval_ms c)) by exact Hi.
    rewrite Helapsed by (unfold d, gap in *; lia).
    apply Z.leb_gt. unfold d, gap in *. lia. }
  assert (Hfire : pulse_due (to_uint32 (tick_count w1 + Z.of_nat d)) (to_uint32 t) c1 = true).
  { unfold pulse_due. cbn [interval_ms c1 set_pulse_count].
    rewrite (to_uint32_small (interval_ms c)) by exact Hi.
    rewrite Helapsed by (unfold d, gap in *; lia).
    apply Z.leb_le. unfold d, gap in *. lia. }
  exists (1 + (d + 1))%nat.
  rewrite run_polls_add. cbn [replicate]. rewrite run_cons. cbn [run fold_left step].
  rewrite (iteration_fire w i lp c Hc Hl Hs Hdue). fold w1. fold t.
  change (fold_left step (replicate (d + 1) Poll) (w1, Looping i (to_uint32 t)))
    with (run (replicate (d + 1) Poll) (w1, Looping i (to_uint32 t))).
  rewrite run_polls_add.
  rewrite (run_polls_waiting d w1 i (to_uint32 t) c1 Hc1 Hl1 Hs1 Hwait).
  cbn [replicate]. rewrite run_cons. cbn [run fold_left step].
  rewrite (iteration_fire (set_tick_count (tick_count w1 + Z.of_nat d) w1)
             i (to_uint32 t) c1 Hc1 Hl1 Hs1 Hfire).
  cbn [fst]. unfold pulse_ticks, fired. cbn [pulse_log set_tick_count tick_count w1 fired].
  rewrite !map_app, <- app_assoc. cbn [map rec_tick app]. fold t.
  do 3 f_equal. unfold d, gap. lia.
Qed.

(** The sample channel (interval 1000, pulse 100) due at tick 4294967000,
    shortly before the 32-bit tick counter wraps: the next pulse starts 1000
    ticks later. *)
Lemma pulses_are_evenly_spaced_witness :
  exists k,
    pulse_ticks (run (replicate k Poll)
                     (mk_world [set_state STATE_RUNNING (sample_config 0); blank]
                               1 true false 4294967000 [] [],
                      Looping 0 0)).1
    = [4294967000; 4294967000 + 1000].
Proof.
  exact (pulses_are_evenly_spaced
           (mk_world [set_state STATE_RUNNING (sample_config 0); blank]
                     1 true false 4294967000 [] [])
           0 0 (set_state STATE_RUNNING (sample_config 0))
           eq_refl eq_refl ltac:(discriminate) (or_introl eq_refl)
           ltac:(vm_compute; intuition discriminate)
           ltac:(vm_compute; intuition discriminate)
           ltac:(vm_compute; intuition discriminate)
           eq_refl).
Defined.

(** *** A limit entry that is refused *)

(** X17.  A pulse limit outside 1 to 1000000 is refused by the prompt but
    not by [configure_output]: the -1 of the refusal is stored as the limit
    and the output counts as configured.  Its task then leaves its loop at
    the first poll: it emits no pulse, gives the end-of-run signal and
    ends. *)
Theorem refused_limit_gives_a_silent_channel
        (ds_i ds_p ds_l : list ascii) (m : ascii) (rest : list ascii)
        (c0 : pulse_config_t) (others : list pulse_config_t)
        (outs : Z) (paused : bool) (tick : Z)
        (trace : list gpio_event) (log : list pulse_record) :
  well_formed_entry ds_i = true ->
  well_formed_entry ds_p = true ->
  well_formed_entry ds_l = true ->
  1 <= decimal_value ds_i <= 3600000 ->
  1 <= decimal_value ds_p <= 10000 ->
  decimal_value ds_l < 1 \/ 1000000 < decimal_value ds_l ->
  let c := mk_config GPIO_OUT_1 (decimal_value ds_i) (decimal_value ds_p)
                     (if char_eqb m "D"%char || char_eqb m "d"%char
                      then MODE_DEFINED else MODE_RANDOM)
                     "OUT1" (-1) (Z.quot 1000 (decimal_value ds_i)) STATE_STOPPED 0 in
  let s := run [Poll] (pulse_task (Some 0%nat)
                         (mk_world (c :: others) outs true paused tick trace log)) in
  configure_output 1 GPIO_OUT_1 (c0 :: others)
    ("I"%char :: ds_i ++ CR :: ds_p ++ CR :: m :: "S"%char :: ds_l ++ CR :: rest)
  = Ret (true, c :: others) rest /\
  s.2 = Deleted /\
  pulse_log s.1 = log /\
  gpio_trace s.1
  = trace ++ mk_gpio_event tick GPIO_OUT_1 1 :: end_toggles GPIO_OUT_1 tick.
Proof.
  intros Hwi Hwp Hwl Hi Hp Hl c s. split.
  - unfold configure_output. unfold uart_bind at 1.
    rewrite (ask_pps_config_interval_entry ds_i _ Hwi).
    destruct (Z.leb_spec 1 (decimal_value ds_i)); [|lia].
    destruct (Z.leb_spec (decimal_value ds_i) 3600000); [|lia]. cbn [andb].
    destruct (Z.ltb_spec (decimal_value ds_i) 0); [lia|].
    unfold uart_bind at 1.
    rewrite (read_int_from_uart_entry MIN_PULSE_MS MAX_PULSE_MS ds_p _ Hwp) by reflexivity.
    unfold MIN_PULSE_MS, MAX_PULSE_MS.
    destruct (Z.leb_spec 1 (decimal_value ds_p)); [|lia].
    destruct (Z.leb_spec (decimal_value ds_p) 10000); [|lia]. cbn [andb].
    destruct (Z.ltb_spec (decimal_value ds_p) 0); [lia|].
    unfold uart_bind at 1, select_mode, uart_bind at 1, uart_read_char, uart_ret at 1.
    unfold uart_bind at 1.
    rewrite (ask_pulse_limit_entry ds_l _ Hwl).
    replace ((1 <=? decimal_value ds_l) && (decimal_value ds_l <=? 1000000)) with false
      by (destruct (Z.leb_spec 1 (decimal_value ds_l)),
            (Z.leb_spec (decimal_value ds_l) 1000000); cbn; try reflexivity; lia).
    unfold uart_bind, uart_eval, c_div, uart_ret.
    destruct (Z.eqb_spec (decimal_value ds_i) 0); [lia|].
    reflexivity.
  - subst s. unfold pulse_task. cbn [active_configs lookup list_lookup].
    cbn [run fold_left step].
    set (w0 := update_config 0 (set_pulse_count 0) _).
    assert (Hc0 : active_configs w0 !! 0%nat
                  = Some (set_pulse_count 0 (set_state STATE_RUNNING c))) by reflexivity.
    rewrite (iteration_finish w0 0 0 _ Hc0) by reflexivity.
    unfold finished, w0. world_ops. cbn [fst snd gpio set_pulse_count set_state c].
    rewrite <- app_assoc. repeat split.
Qed.

(** The limit entry 0 for the sample timing. *)
Lemma refused_limit_gives_a_silent_channel_witness :
  let c := mk_config GPIO_OUT_1 1000 100 MODE_DEFINED "OUT1" (-1) 1 STATE_STOPPED 0 in
  let s := run [Poll] (pulse_task (Some 0%nat) (mk_world [c; blank] 1 true false 5000 [] [])) in
  configure_output 1 GPIO_OUT_1 [blank; blank]
    (chars "I1000" ++ CR :: chars "100" ++ CR :: chars "DS0" ++ [CR])
  = Ret (true, [c; blank]) [] /\
  s.2 = Deleted /\
  pulse_log s.1 = [] /\
  gpio_trace s.1 = mk_gpio_event 5000 GPIO_OUT_1 1 :: end_toggles GPIO_OUT_1 5000.
Proof.
  exact (refused_limit_gives_a_silent_channel
           (chars "1000") (chars "100") (chars "0") "D" [] blank [blank]
           1 false 5000 [] []
           eq_refl eq_refl eq_refl
           ltac:(vm_compute; intuition discriminate)
           ltac:(vm_compute; intuition discriminate)
           (or_introl eq_refl)).
Defined.

End SchedulerExtras.

(** * More on the first firmware *)

Module BasicExtras.
Import Basic BasicFacts.

(** *** Entries and prompts *)

Lemma basic_read_int_loop_cons input index c rx' :
  (index < 9)%nat ->
  read_int_loop input index (c :: rx') =
  if is_newline c then
    if (0 <? index)%nat then Ret (input, index) rx'
    else read_int_loop input index rx'
  else if is_digit c then
    read_int_loop (<[index := c]> input) (S index) rx'
  else read_int_loop input index rx'.
Proof.
  intros H. cbn [read_int_loop].
  destruct (Nat.leb_spec 9 index); [lia|reflexivity].
Qed.

(** The bytes typed before the return key: their digits are stored in order
    and every other byte is dropped. *)
Lemma basic_read_int_loop_typed typed : forall pre rest,
  forallb (fun c => negb (is_newline c)) typed = true ->
  (0 < length pre + length (filter (fun c => is_digit c = true) typed) <= 8)%nat ->
  read_int_loop (pre ++ zeroed (10 - length pre)) (length pre) (typed ++ CR :: rest)
  = Ret ((pre ++ filter (fun c => is_digit c = true) typed)
           ++ zeroed (10 - length (pre ++ filter (fun c => is_digit c = true) typed)),
         length (pre ++ filter (fun c => is_digit c = true) typed)) rest.
Proof.
  induction typed as [|c typed IH]; intros pre rest Hnl Hlen.
  - cbn [filter list_filter length] in *. rewrite app_nil_r. cbn [app].
    rewrite basic_read_int_loop_cons by lia.
    change (is_newline CR) with true. cbv iota.
    destruct (Nat.ltb_spec 0 (length pre)); [reflexivity|lia].
  - cbn [forallb] in Hnl. apply andb_true_iff in Hnl as [Hc Hnl].
    apply negb_true_iff in Hc.
    rewrite filter_cons in *. cbn [app].
    destruct (decide (is_digit c = true)) as [Hd|Hd].
    + cbn [length] in Hlen.
      rewrite basic_read_int_loop_cons by lia. rewrite Hc, Hd.
      replace (10 - length pre)%nat with (S (10 - length (pre ++ [c])))
        by (rewrite length_app; cbn; lia).
      rewrite insert_at_end.
      replace (S (length pre)) with (length (pre ++ [c]))
        by (rewrite length_app; cbn; lia).
      rewrite (IH (pre ++ [c]) rest Hnl) by (rewrite length_app; cbn; lia).
      rewrite <- !app_assoc. reflexivity.
    + apply not_true_is_false in Hd.
      destruct (Nat.lt_ge_cases (length pre) 9) as [Hlt|Hge]; [|lia].
      rewrite basic_read_int_loop_cons by exact Hlt. rewrite Hc, Hd.
      apply (IH pre rest Hnl Hlen).
Qed.

(** X18.  At a prompt of the first firmware only digits count: of the bytes
    typed before the return key, the digits (one to eight of them) form the
    entry and every other byte, the erase key included, is dropped; the entry
    is answered by its value when that lies within the bounds and by -1
    otherwise. *)
Theorem basic_entry_keeps_digits_only
        (min_val max_val : Z) (typed rest : list ascii) :
  forallb (fun c => negb (is_newline c)) typed = true ->
  (1 <= length (filter (fun c => is_digit c = true) typed) <= 8)%nat ->
  max_val < INT_MAX ->
  let value := decimal_value (filter (fun c => is_digit c = true) typed) in
  read_int_from_uart min_val max_val (typed ++ CR :: rest)
  = Ret (if (min_val <=? value) && (value <=? max_val) then value else -1) rest.
Proof.
  intros Hnl Hlen Hmax value. subst value.
  set (ds := filter (fun c => is_digit c = true) typed) in *.
  assert (Hd : forallb is_digit ds = true).
  { apply forallb_forall. intros c Hin. apply list_elem_of_In in Hin.
    apply list_elem_of_filter in Hin as [Hc _]. exact Hc. }
  unfold read_int_from_uart, uart_bind.
  pose proof (basic_read_int_loop_typed typed [] rest Hnl) as Hloop.
  cbn [app length Nat.add] in Hloop. rewrite Nat.sub_0_r in Hloop. fold ds in Hloop.
  rewrite Hloop by lia. cbn [fst].
  unfold atoi.
  replace (10 - length ds)%nat with (S (9 - length ds)) by lia.
  unfold zeroed. cbn [replicate].
  rewrite digits_value_stop by exact Hd. fold (decimal_value ds).
  pose proof (decimal_value_nonneg ds) as Hnn. unfold uart_ret.
  destruct (Z.min_spec (decimal_value ds) INT_MAX) as [[Hlt ->]|[Hge ->]].
  - destruct (Z.ltb_spec (decimal_value ds) min_val),
      (Z.ltb_spec max_val (decimal_value ds)),
      (Z.leb_spec min_val (decimal_value ds)),
      (Z.leb_spec (decimal_value ds) max_val);
      simpl; try reflexivity; lia.
  - destruct (Z.ltb_spec INT_MAX min_val), (Z.ltb_spec max_val INT_MAX),
      (Z.leb_spec min_val (decimal_value ds)),
      (Z.leb_spec (decimal_value ds) max_val);
      simpl; try reflexivity; lia.
Qed.

(** The keys 1, 2, erase, 5, x and return at the prompt of the interval: the
    entry is 125, which is below the minimum of 200. *)
Lemma basic_entry_keeps_digits_only_witness :
  read_int_from_uart MIN_INTERVAL_MS MAX_INTERVAL_MS
    ("1"%char :: "2"%char :: BS :: "5"%char :: "x"%char :: CR :: chars "rest")
  = Ret (-1) (chars "rest").
Proof.
  exact (basic_entry_keeps_digits_only MIN_INTERVAL_MS MAX_INTERVAL_MS
           ["1"%char; "2"%char; BS; "5"%char; "x"%char] (chars "rest")
           eq_refl ltac:(vm_compute; lia) eq_refl).
Defined.

(** *** The entry point *)




(** *** The timing of the pulse task *)




(** *** The prompts *)

(** X21.  The three single-key prompts of the first firmware wait for one of
    their keys: bytes that are no menu key are consumed and ignored, however
    many arrive. *)
Theorem basic_prompts_skip_other_bytes (junk rx : list ascii) :
  forallb (fun c => negb (is_menu_key c)) junk = true ->
  ask_number_of_outputs (junk ++ rx) = ask_number_of_outputs rx /\
  select_mode (junk ++ rx) = select_mode rx /\
  wait_for_start (junk ++ rx) = wait_for_start rx.
Proof.
  induction junk as [|c junk IH]; intros Hj; [repeat split|].
  cbn [forallb] in Hj. apply andb_true_iff in Hj as [Hc Hjunk].
  destruct (IH Hjunk) as (Ha & Hs & Hw).
  apply negb_true_iff in Hc. unfold is_menu_key in Hc.
  repeat (apply orb_false_iff in Hc as [Hc ?]).
  cbn [app ask_number_of_outputs select_mode wait_for_start].
  repeat match goal with H : char_eqb c _ = false |- _ => rewrite H; clear H end.
  cbn [orb]. repeat split; assumption.
Qed.

(** Line noise before the key R at the prompt of the mode. *)
Lemma basic_prompts_skip_other_bytes_witness :
  select_mode (chars "x9 " ++ chars "R") = Ret MODE_RANDOM [].
Proof.
  exact (proj1 (proj2 (basic_prompts_skip_other_bytes (chars "x9 ") (chars "R") eq_refl))).
Defined.

End BasicExtras.
